(** * mpfshell: the session / command-dispatch engine of [mp/mpfshell.py]

    A shallow embedding of class [MpFileShell] (a [cmd.Cmd] shell that
    drives a MicroPython board through an [MpFileExplorer] handle) and of
    the [-c] batch loop of [main].  Python statements become computations
    in a state-and-exception monad over the shell object and the outside
    world; every call that leaves the shell (file explorer, terminal
    bridge, host OS) is answered by an interface instance and recorded in
    a call log. *)

From Stdlib Require Import String Ascii List Bool Arith Lia DecimalString.
Import ListNotations.
Open Scope list_scope.
Open Scope string_scope.

Set Implicit Arguments.

(** ** Python string primitives used by the shell *)

Module PyStr.

Definition chr (n : nat) : string := String (ascii_of_nat n) EmptyString.

Definition nl : string := chr 10.

(** [len(s) > 0], i.e. the truth value of a [str]. *)
Definition nonempty (s : string) : bool :=
  match s with EmptyString => false | String _ _ => true end.

(** The characters removed by [str.strip()] with no argument. *)
Definition whitespace : list ascii :=
  map ascii_of_nat [32; 9; 10; 13; 11; 12].

Definition mem (c : ascii) (cs : list ascii) : bool :=
  existsb (Ascii.eqb c) cs.

Fixpoint lstrip (cs : list ascii) (s : string) : string :=
  match s with
  | EmptyString => EmptyString
  | String c s' => if mem c cs then lstrip cs s' else s
  end.

(** [rstrip] keeps a character when it is not in [cs] or when something
    survives to its right. *)
Fixpoint rstrip (cs : list ascii) (s : string) : string :=
  match s with
  | EmptyString => EmptyString
  | String c s' =>
      match rstrip cs s' with
      | EmptyString => if mem c cs then EmptyString else String c EmptyString
      | r => String c r
      end
  end.

(** [s.strip(cs)] *)
Definition strip_chars (cs : list ascii) (s : string) : string :=
  rstrip cs (lstrip cs s).

(** [s.strip()] *)
Definition strip (s : string) : string := strip_chars whitespace s.

(** [s.startswith(p)] *)
Definition startswith (p s : string) : bool := String.prefix p s.

(** [sep.join(xs)] *)
Fixpoint join (sep : string) (xs : list string) : string :=
  match xs with
  | [] => EmptyString
  | [x] => x
  | x :: rest => x ++ sep ++ join sep rest
  end.

(** [s.split(sep)] for a non-empty separator: pieces between the
    non-overlapping occurrences of [sep], scanned left to right.  [skip]
    counts the characters of a matched separator still to be dropped and
    [acc] holds the current piece, reversed. *)
Fixpoint split_go (sep : string) (skip : nat) (acc : list ascii) (s : string)
  : list string :=
  match s with
  | EmptyString => [string_of_list_ascii (rev acc)]
  | String c s' =>
      match skip with
      | S k => split_go sep k acc s'
      | O =>
          if String.prefix sep s
          then string_of_list_ascii (rev acc)
                 :: split_go sep (String.length sep - 1) [] s'
          else split_go sep 0 (c :: acc) s'
      end
  end.

Definition split (sep s : string) : list string := split_go sep 0 [] s.

(** [xs[-1]] on a non-empty sequence; [None] stands for [IndexError]. *)
Fixpoint last_item {A} (xs : list A) : option A :=
  match xs with
  | [] => None
  | [x] => Some x
  | _ :: rest => last_item rest
  end.

(** Characters of [cmd.Cmd.identchars]: ASCII letters, digits and [_]. *)
Definition identchar (c : ascii) : bool :=
  let n := nat_of_ascii c in
  (Nat.leb 65 n && Nat.leb n 90) || (Nat.leb 97 n && Nat.leb n 122)
  || (Nat.leb 48 n && Nat.leb n 57) || Nat.eqb n 95.

(** Longest prefix of identifier characters, and the rest. *)
Fixpoint span_ident (s : string) : string * string :=
  match s with
  | EmptyString => (EmptyString, EmptyString)
  | String c s' =>
      if identchar c
      then let (a, b) := span_ident s' in (String c a, b)
      else (EmptyString, s)
  end.

(** No character of [s] equals [c]. *)
Fixpoint free_of (c : ascii) (s : string) : bool :=
  match s with
  | EmptyString => true
  | String d s' => negb (Ascii.eqb d c) && free_of c s'
  end.

End PyStr.

(** ** Exceptions *)

(** The exception classes that can reach the shell.  [RemoteIOError] is
    declared in [mp/mpfexp.py] and [PyboardError] in [mp/pyboard.py]; the
    others are built-in. *)
Inductive ExcClass : Type :=
| IOError
| RemoteIOError
| PyboardError
| OSError
| AttributeError
| IndexError
| RuntimeError
| KeyboardInterrupt
| OtherError.

Definition ExcClass_eqb (c d : ExcClass) : bool :=
match c, d with
| IOError, IOError | RemoteIOError, RemoteIOError | PyboardError, PyboardError
| OSError, OSError | AttributeError, AttributeError | IndexError, IndexError
| RuntimeError, RuntimeError | KeyboardInterrupt, KeyboardInterrupt
| OtherError, OtherError => true
| _, _ => false
end.

(** Modelled from the spec: the class declaration of [RemoteIOError]
    ([mp/mpfexp.py]) is not part of the sources at hand; the spec counts a
    remote file-system failure as an [IOError]-class failure, so
    [RemoteIOError] is a subclass of [IOError].  No other class is related
    to another one here. *)
Definition issubclass (c d : ExcClass) : bool :=
match c, d with
| RemoteIOError, IOError => true
| _, _ => ExcClass_eqb c d
end.

(** An exception object, as far as the shell looks at it: its class,
    [str(e)], and [str] of each element of [e.args]. *)
Record exn : Type := mkExn {
  exc_class : ExcClass;
  exc_str : string;
  exc_args : list string
}.

Definition isinstance (e : exn) (c : ExcClass) : bool :=
issubclass (exc_class e) c.

Inductive result (A : Type) : Type :=
| Ret (a : A)
| Raise (e : exn).

Arguments Ret {A} a.
Arguments Raise {A} e.

Definition raised {A} (r : result A) : option exn :=
match r with Ret _ => None | Raise e => Some e end.

Definition returned {A} (r : result A) : bool :=
match r with Ret _ => true | Raise _ => false end.

(** ** colorama.Fore *)

Module Fore.
Definition ESC : string := PyStr.chr 27.
Definition RED : string := ESC ++ "[31m".
Definition GREEN : string := ESC ++ "[32m".
Definition YELLOW : string := ESC ++ "[33m".
Definition BLUE : string := ESC ++ "[34m".
Definition MAGENTA : string := ESC ++ "[35m".
Definition CYAN : string := ESC ++ "[36m".
Definition RESET : string := ESC ++ "[39m".
End Fore.

(** ** The collaborators of the shell

    [World] is everything outside the shell object: the board, the serial
    line, the terminal and the host file system.  A call takes the world
    and answers with the next world and either a value or an exception. *)

Definition ext (World A : Type) : Type := World -> World * result A.

(** [mp.mpfexp.MpFileExplorer]: the constructor and the methods the shell
    calls on [self.fe].  [fe_follow] also yields the chunks it handed to
    the [data_consumer] callback before it returned or raised. *)
Class MpFileExplorer (Handle World : Type) : Type := {
  fe_new : string -> ext World Handle;
  fe_close : Handle -> ext World unit;
  fe_ls : Handle -> ext World (list (string * string));
  fe_pwd : Handle -> ext World string;
  fe_cd : Handle -> string -> ext World unit;
  fe_md : Handle -> string -> ext World unit;
  fe_put : Handle -> string -> string -> ext World unit;
  fe_get : Handle -> string -> string -> ext World unit;
  fe_rm : Handle -> string -> ext World unit;
  fe_gets : Handle -> string -> ext World string;
  fe_exec_raw_no_follow : Handle -> string -> ext World unit;
  fe_follow : Handle -> World -> World * (list string * result (string * string));
  fe_teardown : Handle -> ext World unit;
  fe_setup : Handle -> ext World unit
}.

(** [serial.tools.miniterm]: the [console] object and the terminal that
    [MpTerminal] builds around the handle's serial line. *)
Class Miniterm (Handle World : Type) : Type := {
  console_setup : ext World unit;
  miniterm_start : Handle -> ext World unit;
  miniterm_join : Handle -> ext World unit;
  console_cleanup : ext World unit
}.

(** The [os] calls of the local commands and the text that the inherited
    [cmd.Cmd.do_help] writes for an argument. *)
Class HostOS (World : Type) : Type := {
  os_listdir : ext World (list string);
  os_chdir : string -> ext World unit;
  os_getcwd : ext World string;
  help_text : string -> list string
}.

(** A call that leaves the shell, as the call log records it. *)
Inductive Call (Handle : Type) : Type :=
| CNew (port : string)
| CClose (h : Handle)
| CLs (h : Handle)
| CPwd (h : Handle)
| CCd (h : Handle) (dir : string)
| CMd (h : Handle) (dir : string)
| CPut (h : Handle) (lfile rfile : string)
| CGet (h : Handle) (rfile lfile : string)
| CRm (h : Handle) (target : string)
| CGets (h : Handle) (rfile : string)
| CExecRawNoFollow (h : Handle) (stmt : string)
| CFollow (h : Handle)
| CTeardown (h : Handle)
| CSetup (h : Handle)
| CConsoleSetup
| CMinitermStart (h : Handle)
| CMinitermJoin (h : Handle)
| CConsoleCleanup
| COsListdir
| COsChdir (dir : string)
| COsGetcwd.

Arguments CNew {Handle} port.
Arguments CConsoleSetup {Handle}.
Arguments CConsoleCleanup {Handle}.
Arguments COsListdir {Handle}.
Arguments COsChdir {Handle} dir.
Arguments COsGetcwd {Handle}.

(** The calls that go to the file explorer (the session handle). *)
Definition is_handle_call {Handle} (c : Call Handle) : bool :=
match c with
| CConsoleSetup | CMinitermStart _ | CMinitermJoin _ | CConsoleCleanup
| COsListdir | COsChdir _ | COsGetcwd => false
| _ => true
end.

(** ** State and the shell monad *)

(** The shell object ([fe], [prompt], and [lastcmd] of [cmd.Cmd]) together
    with what it has written to standard output, the log of its outside
    calls (each with the exception it raised, if any) and the world. *)
Record State (Handle World : Type) : Type := mkState {
  fe : option Handle;
  prompt : string;
  lastcmd : string;
  stdout : list string;
  calls : list (Call Handle * option exn);
  world : World
}.

Arguments mkState {Handle World}.
Arguments fe {Handle World}.
Arguments prompt {Handle World}.
Arguments lastcmd {Handle World}.
Arguments stdout {Handle World}.
Arguments calls {Handle World}.
Arguments world {Handle World}.

Section Monad.
Context {Handle World : Type}.

Definition M (A : Type) : Type :=
State Handle World -> State Handle World * result A.

Definition ret {A} (a : A) : M A := fun s => (s, Ret a).

Definition raise {A} (e : exn) : M A := fun s => (s, Raise e).

Definition bind {A B} (m : M A) (k : A -> M B) : M B :=
fun s => match m s with
         | (s', Ret a) => k a s'
         | (s', Raise e) => (s', Raise e)
         end.

(** The first [except] clause whose class the exception is an instance of. *)
Fixpoint find_clause {A} (e : exn) (clauses : list (ExcClass * (exn -> M A)))
  : option (M A) :=
match clauses with
| [] => None
| (c, h) :: rest => if isinstance e c then Some (h e) else find_clause e rest
end.

(** [try: body / except C1 as e: h1 / except C2 as e: h2 ...]: an exception
    of the body runs the first matching clause, from the state the body
    left; an exception of a clause is not caught by its siblings. *)
Definition try_except {A} (body : M A) (clauses : list (ExcClass * (exn -> M A)))
  : M A :=
fun s => match body s with
         | (s', Ret a) => (s', Ret a)
         | (s', Raise e) =>
             match find_clause e clauses with
             | Some h => h s'
             | None => (s', Raise e)
             end
         end.

(** An outside call: the world answers, the log grows by one entry. *)
Definition call {A} (c : Call Handle) (op : ext World A) : M A :=
fun s => let (w, r) := op (world s) in
         (mkState (fe s) (prompt s) (lastcmd s) (stdout s)
                  (calls s ++ [(c, raised r)]) w, r).

(** [sys.stdout.write(x)] *)
Definition write (x : string) : M unit :=
fun s => (mkState (fe s) (prompt s) (lastcmd s) (stdout s ++ [x])
                  (calls s) (world s), Ret tt).

(** [print(x)] *)
Definition print (x : string) : M unit := write (x ++ PyStr.nl).

Definition set_fe (v : option Handle) : M unit :=
fun s => (mkState v (prompt s) (lastcmd s) (stdout s) (calls s) (world s), Ret tt).

Definition set_prompt (p : string) : M unit :=
fun s => (mkState (fe s) p (lastcmd s) (stdout s) (calls s) (world s), Ret tt).

Definition set_lastcmd (l : string) : M unit :=
fun s => (mkState (fe s) (prompt s) l (stdout s) (calls s) (world s), Ret tt).

Definition get_fe : M (option Handle) := fun s => (s, Ret (fe s)).

Definition get_lastcmd : M string := fun s => (s, Ret (lastcmd s)).

(** [for x in xs: body(x)] *)
Fixpoint for_each {A} (xs : list A) (body : A -> M unit) : M unit :=
match xs with
| [] => ret tt
| x :: rest => bind (body x) (fun _ => for_each rest body)
end.

End Monad.

Declare Scope shell_scope.
Delimit Scope shell_scope with shell.
Notation "x <- m ;; k" := (bind m (fun x => k))
  (at level 61, m at next level, right associativity) : shell_scope.
Notation "m ;; k" := (bind m (fun _ => k))
  (at level 61, right associativity) : shell_scope.
Open Scope shell_scope.

(** ** class MpFileShell(cmd.Cmd) *)

Module MpFileShell.
Section Shell.
Context {Handle World : Type}.
Context {FE : MpFileExplorer Handle World}.
Context {MT : Miniterm Handle World}.
Context {OS : HostOS World}.

Local Abbreviation M := (@M Handle World).

Definition intro : string :=
PyStr.nl ++ Fore.GREEN
  ++ "** Micropython File Shell v0.2, 2016 sw@kaltpost.de ** "
  ++ Fore.RESET ++ PyStr.nl.

(** The prompt text around a remote path. *)
Definition prompt_for (path : string) : string :=
Fore.BLUE ++ "mpfs [" ++ Fore.YELLOW ++ path ++ Fore.BLUE ++ "]> " ++ Fore.RESET.

(** [__init__]: the class attribute [prompt] and [self.fe = None]. *)
Definition __init__ (w : World) : State Handle World :=
mkState None (prompt_for "/") EmptyString [] [] w.

(** Reading attribute [name] of [self.fe]: on [None] Python raises
    [AttributeError]. *)
Definition fe_attr (name : string) : M Handle :=
o <- get_fe;;
match o with
| Some h => ret h
| None =>
    let msg := "'NoneType' object has no attribute '" ++ name ++ "'" in
    raise (mkExn AttributeError msg [msg])
end.

Definition __set_prompt_path : M unit :=
h <- fe_attr "pwd";;
p <- call (CPwd h) (fe_pwd h);;
set_prompt (prompt_for p).

Definition __error (msg : string) : M unit :=
print (PyStr.nl ++ Fore.RED ++ msg ++ Fore.RESET ++ PyStr.nl).

(** [str(e[-1])]: the last element of [e.args], [IndexError] when there is
    none. *)
Definition str_last_arg (e : exn) : M string :=
match PyStr.last_item (exc_args e) with
| Some a => ret a
| None =>
    raise (mkExn IndexError "tuple index out of range" ["tuple index out of range"])
end.

Definition __disconnect : M unit :=
o <- get_fe;;
match o with
| None => ret tt
| Some _ =>
    try_except
      (h <- fe_attr "close";;
       call (CClose h) (fe_close h);;
       set_fe None)
      [(RemoteIOError, fun e => __error (exc_str e))]
end.

Definition __connect (port : string) : M unit :=
try_except
  (__disconnect;;
   h <- call (CNew port) (fe_new port);;
   set_fe (Some h))
  [(PyboardError, fun e => a <- str_last_arg e;; __error a)].

Definition not_connected : string := "Not connected to device. Use 'open' first.".

Definition __is_open : M bool :=
o <- get_fe;;
match o with
| None => __error not_connected;; ret false
| Some _ => ret true
end.

(** The [do_*] methods return what [cmd.Cmd] reads as the stop flag:
    [True] for [exit], [None] (here [false]) otherwise. *)
Definition do_exit (args : string) : M bool := ret true.

Definition do_EOF : string -> M bool := do_exit.

Definition do_open (args : string) : M bool :=
if negb (PyStr.nonempty args)
then __error "Missing argument: <PORT>";; ret false
else __connect args;; ret false.

Definition do_close (args : string) : M bool :=
__disconnect;; ret false.

Definition ls_line (elem ty : string) : string :=
" [" ++ ty ++ "] " ++ elem.

Definition do_ls (args : string) : M bool :=
b <- __is_open;;
if b
then
  try_except
    (h <- fe_attr "ls";;
     files <- call (CLs h) (fe_ls h);;
     h' <- fe_attr "pwd";;
     p <- call (CPwd h') (fe_pwd h');;
     print (PyStr.nl ++ "Remote files in '" ++ p ++ "':" ++ PyStr.nl);;
     for_each files
       (fun f => let (elem, ty) := f in
                 if String.eqb ty "F"
                 then print (Fore.CYAN ++ ls_line elem ty ++ Fore.RESET)
                 else print (Fore.MAGENTA ++ ls_line elem ty ++ Fore.RESET));;
     print EmptyString)
    [(IOError, fun e => __error (exc_str e))];;
  ret false
else ret false.

Definition do_pwd (args : string) : M bool :=
h <- fe_attr "pwd";;
p <- call (CPwd h) (fe_pwd h);;
print p;;
ret false.

Definition do_cd (args : string) : M bool :=
if negb (PyStr.nonempty args)
then __error "Missing argument: <REMOTE DIR>";; ret false
else
  b <- __is_open;;
  if b
  then
    try_except
      (h <- fe_attr "cd";;
       call (CCd h args) (fe_cd h args);;
       __set_prompt_path)
      [(IOError, fun e => __error (exc_str e))];;
    ret false
  else ret false.

Definition do_md (args : string) : M bool :=
if negb (PyStr.nonempty args)
then __error "Missing argument: <REMOTE DIR>";; ret false
else
  b <- __is_open;;
  if b
  then
    try_except
      (h <- fe_attr "md";;
       call (CMd h args) (fe_md h args))
      [(IOError, fun e => __error (exc_str e))];;
    ret false
  else ret false.

Definition do_lls (args : string) : M bool :=
files <- call COsListdir os_listdir;;
print (PyStr.nl ++ "Local files:" ++ PyStr.nl);;
for_each files (fun f => print (" " ++ f));;
print EmptyString;;
ret false.

Definition do_lcd (args : string) : M bool :=
if negb (PyStr.nonempty args)
then __error "Missing argument: <TARGET DIR>";; ret false
else
  try_except
    (call (COsChdir args) (os_chdir args))
    [(OSError,
      fun e => __error (List.last (PyStr.split "] " (exc_str e)) EmptyString))];;
  ret false.

Definition do_lpwd (args : string) : M bool :=
p <- call COsGetcwd os_getcwd;;
print p;;
ret false.

(** [s_args[0]] and the optional [s_args[1]] of [args.split(" ")]. *)
Definition first_arg (s_args : list string) : string :=
nth 0 s_args EmptyString.

Definition second_arg_or (s_args : list string) (dflt : string) : string :=
if Nat.ltb 1 (List.length s_args) then nth 1 s_args EmptyString else dflt.

Definition do_put (args : string) : M bool :=
if negb (PyStr.nonempty args)
then __error "Missing arguments: <LOCAL FILE> [<REMOTE FILE>]";; ret false
else
  b <- __is_open;;
  if b
  then
    let s_args := PyStr.split " " args in
    let lfile_name := first_arg s_args in
    let rfile_name := second_arg_or s_args lfile_name in
    try_except
      (h <- fe_attr "put";;
       call (CPut h lfile_name rfile_name) (fe_put h lfile_name rfile_name))
      [(IOError, fun e => __error (exc_str e))];;
    ret false
  else ret false.

Definition do_get (args : string) : M bool :=
if negb (PyStr.nonempty args)
then __error "Missing arguments: <REMOTE FILE> [<LOCAL FILE>]";; ret false
else
  b <- __is_open;;
  if b
  then
    let s_args := PyStr.split " " args in
    let rfile_name := first_arg s_args in
    let lfile_name := second_arg_or s_args rfile_name in
    try_except
      (h <- fe_attr "get";;
       call (CGet h rfile_name lfile_name) (fe_get h rfile_name lfile_name))
      [(IOError, fun e => __error (exc_str e))];;
    ret false
  else ret false.

Definition do_rm (args : string) : M bool :=
if negb (PyStr.nonempty args)
then __error "Missing argument: <REMOTE FILE>";; ret false
else
  b <- __is_open;;
  if b
  then
    try_except
      (h <- fe_attr "rm";;
       call (CRm h args) (fe_rm h args))
      [(IOError, fun e => __error (exc_str e))];;
    ret false
  else ret false.

Definition do_cat (args : string) : M bool :=
if negb (PyStr.nonempty args)
then __error "Missing argument: <REMOTE FILE>";; ret false
else
  b <- __is_open;;
  if b
  then
    try_except
      (h <- fe_attr "gets";;
       text <- call (CGets h args) (fe_gets h args);;
       print text)
      [(IOError, fun e => __error (exc_str e))];;
    ret false
  else ret false.

(** [data_consumer] of [do_exec]: what it writes for one chunk. *)
Definition data_consumer (data : string) : string :=
PyStr.strip_chars [ascii_of_nat 4] data.

(** [self.fe.follow(None, data_consumer)]: the chunks are written while
    the call runs. *)
Definition follow (h : Handle) : M (string * string) :=
fun s => let '(w, (chunks, r)) := fe_follow h (world s) in
         (mkState (fe s) (prompt s) (lastcmd s)
                  (stdout s ++ map data_consumer chunks)
                  (calls s ++ [(CFollow h, raised r)]) w, r).

Definition do_exec (args : string) : M bool :=
if negb (PyStr.nonempty args)
then __error "Missing argument: <STATEMENT>";; ret false
else
  b <- __is_open;;
  if b
  then
    try_except
      (h <- fe_attr "exec_raw_no_follow";;
       call (CExecRawNoFollow h (args ++ PyStr.nl))
            (fe_exec_raw_no_follow h (args ++ PyStr.nl));;
       h' <- fe_attr "follow";;
       r <- follow h';;
       if PyStr.nonempty (snd r) then __error (snd r) else ret tt)
      [(IOError, fun e => __error (exc_str e));
       (PyboardError, fun e => a <- str_last_arg e;; __error a)];;
    ret false
  else ret false.

Definition do_repl (args : string) : M bool :=
b <- __is_open;;
if b
then
  serial <- fe_attr "serial";;
  h <- fe_attr "teardown";;
  call (CTeardown h) (fe_teardown h);;
  call CConsoleSetup console_setup;;
  call (CMinitermStart serial) (miniterm_start serial);;
  print (PyStr.nl ++ "*** Exit REPL with Ctrl+] ***");;
  try_except
    (call (CMinitermJoin serial) (miniterm_join serial))
    [(KeyboardInterrupt, fun _ => ret tt)];;
  call CConsoleCleanup console_cleanup;;
  h' <- fe_attr "setup";;
  call (CSetup h') (fe_setup h');;
  print EmptyString;;
  ret false
else ret false.

(** *** What the shell inherits from [cmd.Cmd] *)

Definition default (line : string) : M bool :=
write ("*** Unknown syntax: " ++ line ++ PyStr.nl);; ret false.

Definition do_help (arg : string) : M bool :=
for_each (help_text arg) write;; ret false.

(** [getattr(self, 'do_' + cmd)] *)
Definition getattr_do (cmd : string) : option (string -> M bool) :=
if String.eqb cmd "exit" then Some do_exit
else if String.eqb cmd "EOF" then Some do_EOF
else if String.eqb cmd "open" then Some do_open
else if String.eqb cmd "close" then Some do_close
else if String.eqb cmd "ls" then Some do_ls
else if String.eqb cmd "pwd" then Some do_pwd
else if String.eqb cmd "cd" then Some do_cd
else if String.eqb cmd "md" then Some do_md
else if String.eqb cmd "lls" then Some do_lls
else if String.eqb cmd "lcd" then Some do_lcd
else if String.eqb cmd "lpwd" then Some do_lpwd
else if String.eqb cmd "put" then Some do_put
else if String.eqb cmd "get" then Some do_get
else if String.eqb cmd "rm" then Some do_rm
else if String.eqb cmd "cat" then Some do_cat
else if String.eqb cmd "exec" then Some do_exec
else if String.eqb cmd "repl" then Some do_repl
else if String.eqb cmd "help" then Some do_help
else None.

(** [parseline]: command name, arguments and the stripped line; the
    first two are [None] when the line cannot be parsed.  The shell has no
    [do_shell], so a line starting with [!] is not parsed. *)
Definition parse_ident (line : string) : option string * option string * string :=
let (cmd, rest) := PyStr.span_ident line in
(Some cmd, Some (PyStr.strip rest), line).

Definition parseline (line : string) : option string * option string * string :=
let line := PyStr.strip line in
match line with
| EmptyString => (None, None, line)
| String c rest =>
    if Ascii.eqb c "?"%char then parse_ident ("help " ++ rest)
    else if Ascii.eqb c "!"%char then (None, None, line)
    else parse_ident line
end.

(** [onecmd] from the point where the parsed line is known not to be
    empty. *)
Definition onecmd_parsed (cmd arg : option string) (line : string) : M bool :=
match cmd, arg with
| Some cmd, Some arg =>
    set_lastcmd line;;
    (if String.eqb line "EOF" then set_lastcmd EmptyString else ret tt);;
    if String.eqb cmd EmptyString
    then default line
    else match getattr_do cmd with
         | Some func => func arg
         | None => default line
         end
| _, _ => default line
end.

(** [onecmd(self.lastcmd)] as [emptyline] calls it.  A [lastcmd] that
    strips to nothing would send [onecmd] and [emptyline] into each other
    without end, which Python stops with a [RuntimeError]. *)
Definition onecmd_again (line : string) : M bool :=
let '(cmd, arg, line') := parseline line in
if PyStr.nonempty line'
then onecmd_parsed cmd arg line'
else
  let msg := "maximum recursion depth exceeded" in
  raise (mkExn RuntimeError msg [msg]).

Definition emptyline : M bool :=
l <- get_lastcmd;;
if PyStr.nonempty l then onecmd_again l else ret false.

Definition onecmd (line : string) : M bool :=
let '(cmd, arg, line') := parseline line in
if PyStr.nonempty line'
then onecmd_parsed cmd arg line'
else emptyline.

(** *** [main]: the [-c/--command] branch *)

Definition main_command (command : list string) : M unit :=
for_each (PyStr.split ";" (PyStr.join " " command))
  (fun cmd =>
     let scmd := PyStr.strip cmd in
     if PyStr.nonempty scmd && negb (PyStr.startswith "#" scmd)
     then onecmd scmd;; ret tt
     else ret tt).

End Shell.
End MpFileShell.

(** ** Statement vocabulary *)

Section Vocabulary.
Context {Handle World : Type}.
Context {FE : MpFileExplorer Handle World}.
Context {MT : Miniterm Handle World}.
Context {OS : HostOS World}.

Local Abbreviation St := (State Handle World).

(** What [__error msg] appends to standard output. *)
Definition advisory (msg : string) : string :=
(PyStr.nl ++ Fore.RED ++ msg ++ Fore.RESET ++ PyStr.nl) ++ PyStr.nl.

(** The state after [__error msg] and nothing else. *)
Definition said (msg : string) (s : St) : St :=
mkState (fe s) (prompt s) (lastcmd s) (stdout s ++ [advisory msg])
        (calls s) (world s).

(** The state after one more logged call that left the world as [w]. *)
Definition logged (c : Call Handle) (o : option exn) (w : World) (s : St) : St :=
mkState (fe s) (prompt s) (lastcmd s) (stdout s) (calls s ++ [(c, o)]) w.

Definition with_fe (v : option Handle) (s : St) : St :=
mkState v (prompt s) (lastcmd s) (stdout s) (calls s) (world s).

Definition with_prompt (p : string) (s : St) : St :=
mkState (fe s) p (lastcmd s) (stdout s) (calls s) (world s).

Definition wrote (xs : list string) (s : St) : St :=
mkState (fe s) (prompt s) (lastcmd s) (stdout s ++ xs) (calls s) (world s).

(** The message an [except] clause of the shell prints for [e]: [str(e)],
    or [str(e[-1])] in the clauses for [PyboardError]. *)
Definition message_of (e : exn) (msg : string) : Prop :=
msg = exc_str e \/ PyStr.last_item (exc_args e) = Some msg.

Definition no_handle_call (cs : list (Call Handle * option exn)) : Prop :=
forall c o, In (c, o) cs -> is_handle_call c = false.

(** The part of [__connect] that runs once [__disconnect] has returned:
    the constructor call, the assignment to [self.fe], and the [except]
    clause around them. *)
Definition connect_attempt (port : string) : M unit :=
try_except
  (h <- call (CNew port) (fe_new port);;
   set_fe (Some h))
  [(PyboardError, fun e => a <- MpFileShell.str_last_arg e;; MpFileShell.__error a)].

(** The lines of a [-c] batch, in the spec's words: the [;]-separated
    pieces, stripped, without the empty ones and the [#] comments. *)
Definition batch_lines (command : list string) : list string :=
filter (fun l => PyStr.nonempty l && negb (PyStr.startswith "#" l))
       (map PyStr.strip (PyStr.split ";" (PyStr.join " " command))).

(** Feeding lines to the dispatcher one after the other. *)
Definition dispatch_all (lines : list string) : M unit :=
for_each lines (fun l => MpFileShell.onecmd l;; ret tt).

(** *** The contract of the collaborators (section 6 of the spec)

    Which failure class each call may raise.  A [PyboardError] carries at
    least one argument, as [str(e[-1])] in the shell presumes. *)
Definition device_error (e : exn) : Prop :=
isinstance e PyboardError = true /\ exc_args e <> [].

Definition never_raises {A} (op : ext World A) : Prop :=
forall w, returned (snd (op w)) = true.

Definition raises_only {A} (op : ext World A) (P : exn -> Prop) : Prop :=
forall w e, snd (op w) = Raise e -> P e.

Definition io_error (e : exn) : Prop := isinstance e IOError = true.

Record BridgeContract : Prop := {
  teardown_returns : forall h, never_raises (fe_teardown h);
  console_setup_returns : never_raises console_setup;
  start_returns : forall h, never_raises (miniterm_start h);
  join_interrupt : forall h,
    raises_only (miniterm_join h) (fun e => isinstance e KeyboardInterrupt = true);
  console_cleanup_returns : never_raises console_cleanup
}.

Record Contract : Prop := {
  new_raises : forall port, raises_only (fe_new port) device_error;
  close_raises : forall h,
    raises_only (fe_close h) (fun e => isinstance e RemoteIOError = true);
  ls_raises : forall h, raises_only (fe_ls h) io_error;
  pwd_returns : forall h, never_raises (fe_pwd h);
  cd_raises : forall h d, raises_only (fe_cd h d) io_error;
  md_raises : forall h d, raises_only (fe_md h d) io_error;
  put_raises : forall h l r, raises_only (fe_put h l r) io_error;
  get_raises : forall h r l, raises_only (fe_get h r l) io_error;
  rm_raises : forall h t, raises_only (fe_rm h t) io_error;
  gets_raises : forall h f, raises_only (fe_gets h f) io_error;
  exec_raises : forall h c,
    raises_only (fe_exec_raw_no_follow h c) (fun e => io_error e \/ device_error e);
  follow_raises : forall h w e,
    snd (snd (fe_follow h w)) = Raise e -> io_error e \/ device_error e;
  setup_returns : forall h, never_raises (fe_setup h);
  bridge : BridgeContract
}.

(** A computation keeps failures of the session handle to itself: from
    any state it only appends to the call log and to standard output; if
    it ends by an exception then it made no call to the session handle;
    and for every session-handle call that raised, the advisory with the
    message of that exception is among what it printed. *)
Definition handled {A} (m : M A) : Prop :=
forall s : St,
  exists nc no,
    calls (fst (m s)) = (calls s ++ nc)%list
    /\ stdout (fst (m s)) = (stdout s ++ no)%list
    /\ (returned (snd (m s)) = false -> no_handle_call nc)
    /\ (forall c e, In (c, Some e) nc -> is_handle_call c = true ->
        exists msg, message_of e msg /\ In (advisory msg) no).

End Vocabulary.

Arguments BridgeContract {Handle World} FE MT.
Arguments Contract {Handle World} FE MT.

(** ** A scripted board, terminal and host

    The stand-in for the collaborators: a board with a list of remote
    directories whose connect and close calls can be set to fail, and a
    terminal whose bridge can be left by an interrupt.  Handles are
    numbered as they are created. *)

Module Fake.

Record Board : Type := mkBoard {
  dirs : list string;
  cwd : string;
  connect_fails : bool;
  close_fails : bool;
  interrupted : bool;
  next_handle : nat
}.

Definition no_raw_repl : exn :=
mkExn PyboardError "could not enter raw repl" ["could not enter raw repl"].

Definition close_failed : exn :=
mkExn RemoteIOError "Device communication failed" ["Device communication failed"].

Definition no_such_dir (d : string) : exn :=
mkExn RemoteIOError ("No such directory: " ++ d) ["No such directory: " ++ d].

Definition interrupt : exn := mkExn KeyboardInterrupt EmptyString [].

Definition has_dir (d : string) (b : Board) : bool :=
existsb (String.eqb d) (dirs b).

Definition chdir (d : string) (b : Board) : Board :=
mkBoard (dirs b) d (connect_fails b) (close_fails b) (interrupted b) (next_handle b).

Definition mkdir (d : string) (b : Board) : Board :=
mkBoard (d :: dirs b) (cwd b) (connect_fails b) (close_fails b) (interrupted b)
        (next_handle b).

Definition fresh (b : Board) : Board :=
mkBoard (dirs b) "/" (connect_fails b) (close_fails b) (interrupted b)
        (S (next_handle b)).

Definition ok {A} (a : A) : ext Board A := fun b => (b, Ret a).

#[export] Instance explorer : MpFileExplorer nat Board := {
  fe_new := fun _ b =>
    if connect_fails b then (b, Raise no_raw_repl) else (fresh b, Ret (next_handle b));
  fe_close := fun _ b =>
    if close_fails b then (b, Raise close_failed) else (b, Ret tt);
  fe_ls := fun _ b => (b, Ret (map (fun d => (d, "D")) (dirs b)));
  fe_pwd := fun _ b => (b, Ret (cwd b));
  fe_cd := fun _ d b =>
    if has_dir d b then (chdir d b, Ret tt) else (b, Raise (no_such_dir d));
  fe_md := fun _ d b => (mkdir d b, Ret tt);
  fe_put := fun _ _ _ => ok tt;
  fe_get := fun _ _ _ => ok tt;
  fe_rm := fun _ _ => ok tt;
  fe_gets := fun _ _ => ok EmptyString;
  fe_exec_raw_no_follow := fun _ _ => ok tt;
  fe_follow := fun _ b => (b, ([], Ret (EmptyString, EmptyString)));
  fe_teardown := fun _ => ok tt;
  fe_setup := fun _ => ok tt
}.

#[export] Instance terminal : Miniterm nat Board := {
  console_setup := ok tt;
  miniterm_start := fun _ => ok tt;
  miniterm_join := fun _ b =>
    if interrupted b then (b, Raise interrupt) else (b, Ret tt);
  console_cleanup := ok tt
}.

#[export] Instance host : HostOS Board := {
  os_listdir := ok [];
  os_chdir := fun _ => ok tt;
  os_getcwd := ok "/home";
  help_text := fun _ => []
}.

(** A board with directory [/lib] that has given out handle [0] already;
    [cf], [xf] and [ki] set the connect failure, the close failure and the
    interrupt. *)
Definition board (cf xf ki : bool) : Board :=
mkBoard ["/lib"] "/" cf xf ki 1.

(** A fresh shell, and a shell connected through handle [0]. *)
Definition fresh_shell (b : Board) : State nat Board := MpFileShell.__init__ b.

Definition connected_shell (b : Board) : State nat Board :=
mkState (Some 0) (MpFileShell.prompt_for "/") EmptyString [] [] b.

(** The board with no failure set, one whose close fails, one whose
    connect fails, one with both, and one whose bridge is interrupted. *)
Definition sound : Board := board false false false.
Definition stuck : Board := board false true false.
Definition deaf : Board := board true false false.
Definition dead : Board := board true true false.
Definition impatient : Board := board false false true.

End Fake.

(** ** The rest of [mpfshell.py]: teardown, completion, the script branch *)

(** [fe.ls(add_files=..., add_dirs=...)] without details, as the
    completers call it: the names only. *)
Class MpFileExplorerNames (Handle World : Type) : Type := {
  fe_ls_names : Handle -> bool -> bool -> ext World (list string)
}.

(** [os.path.isdir] and [os.path.isfile]. *)
Class HostPaths (World : Type) : Type := {
  os_path_isdir : string -> ext World bool;
  os_path_isfile : string -> ext World bool
}.

Module Rest.
Section Rest.
Context {Handle World : Type}.
Context {FE : MpFileExplorer Handle World}.
Context {MT : Miniterm Handle World}.
Context {OS : HostOS World}.
Context {LS : MpFileExplorerNames Handle World}.
Context {HP : HostPaths World}.

(** [issubclass(c, Exception)].  The built-in classes are known;
    [PyboardError] is declared in [mp/pyboard.py], outside the sources at
    hand, so its base class is left open, as is that of any other class. *)
Variable pyboard_is_exception : bool.
Variable other_is_exception : bool.

Local Abbreviation M := (@M Handle World).

Definition is_Exception (c : ExcClass) : bool :=
match c with
| KeyboardInterrupt => false
| PyboardError => pyboard_is_exception
| OtherError => other_is_exception
| _ => true
end.

(** [try: body / except Exception: handler] *)
Definition try_except_Exception {A} (body handler : M A) : M A :=
fun s => match body s with
         | (s', Ret a) => (s', Ret a)
         | (s', Raise e) =>
             if is_Exception (exc_class e) then handler s' else (s', Raise e)
         end.

(** A call to [os.path]: the world answers; these tests are not logged. *)
Definition ask {A} (op : ext World A) : M A :=
fun s => let (w, r) := op (world s) in
         (mkState (fe s) (prompt s) (lastcmd s) (stdout s) (calls s) w, r).

(** [[x for x in xs if test(x)]] with a test that asks the world. *)
Fixpoint filter_m {A} (test : A -> M bool) (xs : list A) : M (list A) :=
match xs with
| [] => ret []
| x :: rest =>
    b <- test x;;
    kept <- filter_m test rest;;
    ret (if b then x :: kept else kept)
end.

(** [os.path.join(".", o)] *)
Definition os_path_join_dot (o : string) : string :=
if PyStr.startswith "/" o then o else "." ++ "/" ++ o.

(** [[i for i in files if i.startswith(args[0])]] *)
Definition starting_with (text : string) (files : list string) : list string :=
filter (fun i => PyStr.startswith text i) files.

Definition __del__ : M unit := MpFileShell.__disconnect.

(** The completers; [text] is [args[0]], the word being completed. *)
Definition complete_cd (text : string) : M (list string) :=
files <- try_except_Exception
           (h <- MpFileShell.fe_attr "ls";;
            call (CLs h) (fe_ls_names h false true))
           (ret []);;
ret (starting_with text files).

Definition complete_lcd (text : string) : M (list string) :=
names <- call COsListdir os_listdir;;
dirs <- filter_m (fun o => ask (os_path_isdir (os_path_join_dot o))) names;;
ret (starting_with text dirs).

Definition complete_put (text : string) : M (list string) :=
names <- call COsListdir os_listdir;;
files <- filter_m (fun o => ask (os_path_isfile (os_path_join_dot o))) names;;
ret (starting_with text files).

Definition complete_get (text : string) : M (list string) :=
files <- try_except_Exception
           (h <- MpFileShell.fe_attr "ls";;
            call (CLs h) (fe_ls_names h true false))
           (ret []);;
ret (starting_with text files).

Definition complete_rm (text : string) : M (list string) :=
files <- try_except_Exception
           (h <- MpFileShell.fe_attr "ls";;
            call (CLs h) (fe_ls_names h true true))
           (ret []);;
ret (starting_with text files).

Definition complete_cat : string -> M (list string) := complete_get.

(** *** [main]: the [-s/--script] branch

    The loop over the lines of the script file builds the text; its
    conversion by [unicode] becomes standard input, and then [intro] and
    [prompt] are emptied.  The computation answers with the new standard
    input and the new [intro]. *)
Fixpoint script_loop (lines : list string) (script : string) : string :=
match lines with
| [] => script
| line :: rest =>
    let sline := PyStr.strip line in
    if PyStr.nonempty sline && negb (PyStr.startswith "#" sline)
    then script_loop rest (script ++ sline ++ PyStr.nl)
    else script_loop rest script
end.

(** Position and value of the first byte of [s] that is no ASCII
    character, counting from [pos]. *)
Fixpoint first_non_ascii (s : string) (pos : nat) : option (nat * nat) :=
match s with
| EmptyString => None
| String c rest =>
    if Nat.ltb (nat_of_ascii c) 128
    then first_non_ascii rest (S pos)
    else Some (pos, nat_of_ascii c)
end.

Definition hex_digit (n : nat) : string :=
String.substring n 1 "0123456789abcdef".

Definition hex_byte (n : nat) : string :=
hex_digit (n / 16) ++ hex_digit (n mod 16).

Definition str_nat (n : nat) : string :=
NilZero.string_of_uint (Nat.to_uint n).

(** [unicode(s)] on a byte string of Python 2: the default [ascii] codec
    decodes it, and raises [UnicodeDecodeError] at the first byte above
    127.  That class is none of [ExcClass]'s own, so it stands as
    [OtherError]; the text and the arguments are those of Python. *)
Definition unicode (s : string) : result string :=
match first_non_ascii s 0 with
| None => Ret s
| Some (pos, b) =>
    Raise (mkExn OtherError
             ("'ascii' codec can't decode byte 0x" ++ hex_byte b
              ++ " in position " ++ str_nat pos
              ++ ": ordinal not in range(128)")
             ["ascii"; s; str_nat pos; str_nat (S pos);
              "ordinal not in range(128)"])
end.

Definition main_script (lines : list string) : M (string * string) :=
let script := script_loop lines EmptyString in
match unicode script with
| Ret text =>
    set_prompt EmptyString;;
    ret (text, EmptyString)
| Raise e => raise e
end.

End Rest.
End Rest.

(** ** More statement vocabulary *)

Section Frames.
Context {Handle World : Type}.

Local Abbreviation St := (State Handle World).

(** A computation leaves an observation of the state as it found it. *)
Definition keeps {X A} (obs : St -> X) (m : M A) : Prop :=
forall s : St, obs (fst (m s)) = obs s.

(** An observation that does not look at standard output, the call log
    or the world. *)
Definition shell_only {X} (obs : St -> X) : Prop :=
forall f p l o c w o' c' w',
  obs (mkState f p l o c w) = obs (mkState f p l o' c' w').

(** The calls to the session handle in the log, in order. *)
Definition device_log (s : St) : list (Call Handle * option exn) :=
filter (fun x => is_handle_call (fst x)) (calls s).

(** An observation that does not look at standard output or the world,
    nor at calls to the host and the terminal in the log. *)
Definition host_blind {X} (obs : St -> X) : Prop :=
forall f p l o c w o' w' x,
  is_handle_call (fst x) = false ->
  obs (mkState f p l o c w) = obs (mkState f p l o' c w')
  /\ obs (mkState f p l o c w) = obs (mkState f p l o' (c ++ [x]) w').

(** The state with [lastcmd] replaced. *)
Definition with_lastcmd (l : string) (s : St) : St :=
mkState (fe s) (prompt s) l (stdout s) (calls s) (world s).

(** The line [do_ls] prints for one entry. *)
Definition ls_entry (f : string * string) : string :=
((if String.eqb (snd f) "F"
  then Fore.CYAN ++ MpFileShell.ls_line (fst f) (snd f) ++ Fore.RESET
  else Fore.MAGENTA ++ MpFileShell.ls_line (fst f) (snd f) ++ Fore.RESET)
 ++ PyStr.nl)%string.

(** What [do_ls] prints first, and what [do_lls] prints first and per
    name. *)
Definition ls_header (p : string) : string :=
((PyStr.nl ++ "Remote files in '" ++ p ++ "':" ++ PyStr.nl) ++ PyStr.nl)%string.

Definition lls_header : string :=
((PyStr.nl ++ "Local files:" ++ PyStr.nl) ++ PyStr.nl)%string.

Definition lls_entry (f : string) : string :=
((" " ++ f) ++ PyStr.nl)%string.

(** A line that the batch runner and the script reader keep. *)
Definition kept_line (l : string) : bool :=
PyStr.nonempty l && negb (PyStr.startswith "#" l).

(** Every character of a string is below 128. *)
Fixpoint is_ascii (s : string) : bool :=
match s with
| EmptyString => true
| String c rest => Nat.ltb (nat_of_ascii c) 128 && is_ascii rest
end.

(** The first and the last character of a string. *)
Definition first_char (s : string) : option ascii :=
match s with EmptyString => None | String c _ => Some c end.

Fixpoint last_char (s : string) : option ascii :=
match s with
| EmptyString => None
| String c EmptyString => Some c
| String _ rest => last_char rest
end.

End Frames.

(** ** A scripted desk: board, host directory and terminal for the rest *)

Module Desk.

Record World : Type := mkWorld {
  remote : list (string * string);
  local_names : list string;
  local_dirs : list string;
  chdir_error : option exn;
  ls_error : option exn;
  new_error : option exn;
  exec_chunks : list string;
  exec_tail : string
}.

Definition answer {A} (a : A) : ext World A := fun w => (w, Ret a).

Definition fail_or {A} (e : option exn) (a : A) : ext World A :=
fun w => match e with Some x => (w, Raise x) | None => (w, Ret a) end.

Definition names_of (add_files add_dirs : bool) (w : World) : list string :=
map fst (filter (fun f => if String.eqb (snd f) "F" then add_files else add_dirs)
                (remote w)).

#[export] Instance explorer : MpFileExplorer nat World := {
  fe_new := fun _ w => fail_or (new_error w) 1 w;
  fe_close := fun _ => answer tt;
  fe_ls := fun _ w => fail_or (ls_error w) (remote w) w;
  fe_pwd := fun _ => answer "/";
  fe_cd := fun _ _ => answer tt;
  fe_md := fun _ _ => answer tt;
  fe_put := fun _ _ _ => answer tt;
  fe_get := fun _ _ _ => answer tt;
  fe_rm := fun _ _ => answer tt;
  fe_gets := fun _ _ => answer "import pyb";
  fe_exec_raw_no_follow := fun _ _ => answer tt;
  fe_follow := fun _ w => (w, (exec_chunks w, Ret (EmptyString, exec_tail w)));
  fe_teardown := fun _ => answer tt;
  fe_setup := fun _ => answer tt
}.

#[export] Instance terminal : Miniterm nat World := {
  console_setup := answer tt;
  miniterm_start := fun _ => answer tt;
  miniterm_join := fun _ => answer tt;
  console_cleanup := answer tt
}.

#[export] Instance host : HostOS World := {
  os_listdir := fun w => (w, Ret (local_names w));
  os_chdir := fun _ w => fail_or (chdir_error w) tt w;
  os_getcwd := answer "/home/user";
  help_text := fun _ => []
}.

#[export] Instance names : MpFileExplorerNames nat World := {
  fe_ls_names := fun _ add_files add_dirs w =>
    fail_or (ls_error w) (names_of add_files add_dirs w) w
}.

#[export] Instance paths : HostPaths World := {
  os_path_isdir := fun p w =>
    (w, Ret (existsb (fun d => String.eqb p ("./" ++ d)) (local_dirs w)));
  os_path_isfile := fun p w =>
    (w, Ret (existsb (fun n => String.eqb p ("./" ++ n)) (local_names w)
             && negb (existsb (fun d => String.eqb p ("./" ++ d)) (local_dirs w))))
}.

Definition EOT : string := PyStr.chr 4.

Definition no_entry : exn :=
mkExn OSError "[Errno 2] No such file or directory: 'nowhere'"
      ["2"; "No such file or directory"].

Definition comm_failed : exn :=
mkExn RemoteIOError "Device communication failed" ["Device communication failed"].

Definition ctrl_c : exn := mkExn KeyboardInterrupt EmptyString [].

Definition serial_failed : exn :=
mkExn IOError "could not open port COM9" ["could not open port COM9"].

(** A board with two files and two directories, a host directory with
    two files and one directory, and a statement whose output arrives in
    two chunks, the second closed by an end-of-transmission mark. *)
Definition desk : World :=
mkWorld [("boot.py", "F"); ("lib", "D"); ("main.py", "F"); ("log", "D")]
        ["main.py"; "notes.txt"; "build"] ["build"]
        None None None ["4"; ("2" ++ EOT)%string] EmptyString.

Definition with_chdir_error (e : exn) (w : World) : World :=
mkWorld (remote w) (local_names w) (local_dirs w) (Some e) (ls_error w)
        (new_error w) (exec_chunks w) (exec_tail w).

Definition with_ls_error (e : exn) (w : World) : World :=
mkWorld (remote w) (local_names w) (local_dirs w) (chdir_error w) (Some e)
        (new_error w) (exec_chunks w) (exec_tail w).

Definition with_new_error (e : exn) (w : World) : World :=
mkWorld (remote w) (local_names w) (local_dirs w) (chdir_error w) (ls_error w)
        (Some e) (exec_chunks w) (exec_tail w).

Definition with_exec_tail (t : string) (w : World) : World :=
mkWorld (remote w) (local_names w) (local_dirs w) (chdir_error w) (ls_error w)
        (new_error w) (exec_chunks w) t.

Definition offline (w : World) : State nat World := MpFileShell.__init__ w.

Definition online (w : World) : State nat World :=
mkState (Some 0) (MpFileShell.prompt_for "/") EmptyString [] [] w.

End Desk.

(** * Properties *)

Unset Implicit Arguments.

Import MpFileShell.

(** Unfolds the shell monad down to matches on the collaborators' answers. *)
Ltac run :=
  cbv beta iota zeta delta
    [do_exit do_EOF do_open do_close do_ls do_pwd do_cd do_md do_lls do_lcd
     do_lpwd do_put do_get do_rm do_cat do_exec do_repl do_help default
     __connect __disconnect __is_open __error __set_prompt_path fe_attr
     str_last_arg follow connect_attempt
     bind ret raise try_except find_clause call write print set_fe set_prompt
     set_lastcmd get_fe get_lastcmd said logged with_fe with_prompt wrote];
  cbn [fe prompt lastcmd stdout calls world fst snd negb PyStr.nonempty
       exc_class exc_str exc_args raised].

(** Refutes the branch in which a call that never raises has raised. *)
Ltac returns_by H E :=
  let X := fresh in
  pose proof H as X; unfold never_raises in X;
  match type of E with
  | ?op ?w = _ => specialize (X w); rewrite E in X; cbn in X; discriminate X
  end.

Ltac ext_eq :=
  first [ reflexivity
        | rewrite <- !app_assoc; reflexivity
        | symmetry; apply app_nil_r ].

Ltac no_calls :=
  let c := fresh "c" in let o := fresh "o" in let HIn := fresh "HIn" in
  unfold no_handle_call; cbn [In app]; intros c o HIn;
  repeat (destruct HIn as [HIn|HIn]; [inversion HIn; subst; reflexivity|]);
  contradiction.

Ltac in_printed :=
  solve [cbn [In app]; auto 12 using in_eq, in_cons, in_or_app].

Ltac printed_for K :=
  let c := fresh "c" in let e := fresh "e" in
  let HIn := fresh "HIn" in let Hh := fresh "Hh" in
  cbn [In app]; intros c e HIn Hh;
  repeat (destruct HIn as [HIn|HIn];
          [inversion HIn; subst;
           first [ discriminate
                 | eexists; split; [left; reflexivity | in_printed]
                 | eexists; split; [right; exact K | in_printed] ] |]);
  contradiction.

(** Closes a [handled] goal once execution has reached a final state. *)
Ltac finish_with K :=
  cbn [fst snd calls stdout returned];
  eexists; eexists;
  split; [ext_eq|]; split; [ext_eq|];
  split; [first [discriminate | intros _; no_calls] | printed_for K].

Ltac finish := finish_with I.

(** Reads off the contract what class an exception raised by a call has. *)
Ltac raises_by H E K :=
  pose proof H as K; unfold raises_only in K;
  match type of E with
  | ?op ?w = (_, Raise ?e) =>
      specialize (K w e); rewrite E in K; specialize (K eq_refl);
      cbn beta in K; unfold io_error in K
  end.

Section Sessions.
Context {Handle World : Type}.
Context {FE : MpFileExplorer Handle World}.
Context {MT : Miniterm Handle World}.
Context {OS : HostOS World}.

Local Abbreviation St := (State Handle World).

Lemma nonempty_true (a : string) : a <> EmptyString -> PyStr.nonempty a = true.
Proof. destruct a; [congruence | reflexivity]. Qed.

Lemma state_eta (s : St) :
  mkState (fe s) (prompt s) (lastcmd s) (stdout s) (calls s) (world s) = s.
Proof. destruct s; reflexivity. Qed.

(** [__is_open] on a shell without a session prints the advisory and
    answers [False]; on a shell with one it answers [True] untouched. *)
Lemma is_open_none (s : St) :
  fe s = None -> __is_open s = (said not_connected s, Ret false).
Proof. destruct s; cbn; intros ->; reflexivity. Qed.

Lemma is_open_some (s : St) (h : Handle) :
  fe s = Some h -> __is_open s = (s, Ret true).
Proof. destruct s; cbn; intros ->; reflexivity. Qed.

(** C1 (as amended): on a shell without a session, [ls] and [repl] with any
    arguments, and [cd], [md], [put], [get], [rm], [cat] and [exec] with a
    non-empty argument string, print the fixed advisory, return to the
    prompt, and change nothing else: no call is logged, and the session
    field, the prompt and the world stay as they were. *)
Theorem disconnected_command_prints_advisory (s : St) (args : string) :
  fe s = None ->
  do_ls args s = (said not_connected s, Ret false)
  /\ do_repl args s = (said not_connected s, Ret false)
  /\ (args <> EmptyString ->
      do_cd args s = (said not_connected s, Ret false)
      /\ do_md args s = (said not_connected s, Ret false)
      /\ do_put args s = (said not_connected s, Ret false)
      /\ do_get args s = (said not_connected s, Ret false)
      /\ do_rm args s = (said not_connected s, Ret false)
      /\ do_cat args s = (said not_connected s, Ret false)
      /\ do_exec args s = (said not_connected s, Ret false)).
Proof.
  intros H.
  split; [| split].
  - unfold do_ls, bind. rewrite (is_open_none s H). reflexivity.
  - unfold do_repl, bind. rewrite (is_open_none s H). reflexivity.
  - intros Ha. apply nonempty_true in Ha.
    unfold do_cd, do_md, do_put, do_get, do_rm, do_cat, do_exec.
    rewrite Ha. cbn [negb]. unfold bind.
    rewrite (is_open_none s H). repeat split.
Qed.

(** With an empty argument string the same commands report the missing
    argument instead, whatever the session state. *)
Lemma missing_argument_first (s : St) :
  do_cd EmptyString s = (said "Missing argument: <REMOTE DIR>" s, Ret false)
  /\ do_md EmptyString s = (said "Missing argument: <REMOTE DIR>" s, Ret false)
  /\ do_put EmptyString s
     = (said "Missing arguments: <LOCAL FILE> [<REMOTE FILE>]" s, Ret false)
  /\ do_get EmptyString s
     = (said "Missing arguments: <REMOTE FILE> [<LOCAL FILE>]" s, Ret false)
  /\ do_rm EmptyString s = (said "Missing argument: <REMOTE FILE>" s, Ret false)
  /\ do_cat EmptyString s = (said "Missing argument: <REMOTE FILE>" s, Ret false)
  /\ do_exec EmptyString s = (said "Missing argument: <STATEMENT>" s, Ret false).
Proof. repeat split. Qed.

(** [pwd] has no [__is_open] guard: without a session the attribute
    access on [None] raises, and nothing is printed. *)
Lemma pwd_disconnected_raises (s : St) (args : string) :
  fe s = None ->
  exists e, do_pwd args s = (s, Raise e) /\ exc_class e = AttributeError.
Proof.
  destruct s; cbn; intros ->. eexists. split; reflexivity.
Qed.

(** *** Closing and re-opening *)

Lemma disconnect_none (s : St) :
  fe s = None -> __disconnect s = (s, Ret tt).
Proof. destruct s; cbn; intros ->; reflexivity. Qed.

Lemma disconnect_ok (s : St) (h : Handle) (w : World) :
  fe s = Some h -> fe_close h (world s) = (w, Ret tt) ->
  __disconnect s = (with_fe None (logged (CClose h) None w s), Ret tt).
Proof.
  destruct s; cbn; intros -> E. run. rewrite E. reflexivity.
Qed.

Lemma disconnect_remote_error (s : St) (h : Handle) (w : World) (e : exn) :
  fe s = Some h -> fe_close h (world s) = (w, Raise e) ->
  isinstance e RemoteIOError = true ->
  __disconnect s = (said (exc_str e) (logged (CClose h) (Some e) w s), Ret tt).
Proof.
  destruct s; cbn; intros -> E I. run. rewrite E.
  rewrite I. reflexivity.
Qed.

Lemma disconnect_other_error (s : St) (h : Handle) (w : World) (e : exn) :
  fe s = Some h -> fe_close h (world s) = (w, Raise e) ->
  isinstance e RemoteIOError = false ->
  __disconnect s = (logged (CClose h) (Some e) w s, Raise e).
Proof.
  destruct s; cbn; intros -> E I. run. rewrite E.
  rewrite I. reflexivity.
Qed.

(** Once [__disconnect] has returned, [__connect] is the connect attempt
    from the state it left. *)
Lemma connect_after_disconnect (s s1 : St) (port : string) :
  __disconnect s = (s1, Ret tt) -> __connect port s = connect_attempt port s1.
Proof.
  intros E. unfold __connect, connect_attempt, try_except, bind.
  rewrite E. reflexivity.
Qed.

Lemma open_after_disconnect (s s1 : St) (port : string) :
  port <> EmptyString -> __disconnect s = (s1, Ret tt) ->
  do_open port s = (connect_attempt port;; ret false) s1.
Proof.
  intros Hp E. apply nonempty_true in Hp. unfold do_open. rewrite Hp.
  cbn [negb]. unfold bind at 1. rewrite (connect_after_disconnect s s1 port E).
  reflexivity.
Qed.

(** The connect attempt makes one call, the constructor, and leaves the
    session field alone unless the constructor returns a handle. *)
Lemma connect_attempt_effect (s : St) (port : string) :
  calls (fst (connect_attempt port s))
  = (calls s ++ [(CNew port, raised (snd (fe_new port (world s))))])%list
  /\ fe (fst (connect_attempt port s))
     = match snd (fe_new port (world s)) with
       | Ret h' => Some h'
       | Raise _ => fe s
       end.
Proof.
  destruct s as [f p l o c w]. run.
  destruct (fe_new port w) as [w' [h'|e]]; cbn; [split; reflexivity|].
  destruct (isinstance e PyboardError); cbn; [|split; reflexivity].
  destruct (PyStr.last_item (exc_args e)); cbn; split; reflexivity.
Qed.

Lemma then_ret_fst {A} (m : M A) (b : bool) (s : St) :
  fst ((m;; ret b) s) = fst (m s).
Proof. unfold bind, ret. destruct (m s) as [s' [a|e]]; reflexivity. Qed.

(** C2 (as amended): when [fe.close()] raises [RemoteIOError] on a connected
    shell, [close] prints the failure message and keeps the session: the
    handle stays in [self.fe].  Inside [open] the message is printed, the
    handle is kept, and the connect is attempted all the same; afterwards
    the shell holds the new handle when the connect returned one and the
    old handle otherwise. *)
Theorem failed_close_keeps_session
    (s : St) (h : Handle) (w : World) (e : exn) (args port : string) :
  fe s = Some h ->
  fe_close h (world s) = (w, Raise e) ->
  isinstance e RemoteIOError = true ->
  let s1 := said (exc_str e) (logged (CClose h) (Some e) w s) in
  do_close args s = (s1, Ret false)
  /\ fe s1 = Some h
  /\ (port <> EmptyString ->
      do_open port s = (connect_attempt port;; ret false) s1
      /\ fe (fst (do_open port s))
         = match snd (fe_new port w) with
           | Ret h' => Some h'
           | Raise _ => Some h
           end).
Proof.
  intros Hfe E I s1.
  pose proof (disconnect_remote_error s h w e Hfe E I) as D. fold s1 in D.
  assert (F : fe s1 = Some h) by (destruct s; cbn in *; exact Hfe).
  split; [| split].
  - unfold do_close, bind. rewrite D. reflexivity.
  - exact F.
  - intros Hp. pose proof (open_after_disconnect s s1 port Hp D) as O.
    split; [exact O|]. rewrite O, then_ret_fst.
    destruct (connect_attempt_effect s1 port) as [_ ->].
    replace (world s1) with w by (destruct s; reflexivity).
    rewrite F. reflexivity.
Qed.

(** C4 (as amended): [open] with a port on a connected shell calls
    [fe.close()] on the existing handle before anything else.  When that
    call returns, the handle is released and the connect is attempted from
    the shell without a session; when it raises [RemoteIOError], the
    failure is printed, the handle is kept, and the connect is attempted
    from there.  In both cases the log grows by the close call followed by
    the constructor call. *)
Theorem open_closes_before_connecting
    (s : St) (h : Handle) (port : string) (w : World) (r : result unit) :
  fe s = Some h ->
  port <> EmptyString ->
  fe_close h (world s) = (w, r) ->
  (forall e, r = Raise e -> isinstance e RemoteIOError = true) ->
  let s1 := match r with
            | Ret _ => with_fe None (logged (CClose h) None w s)
            | Raise e => said (exc_str e) (logged (CClose h) (Some e) w s)
            end in
  fst (__disconnect s) = s1
  /\ fe s1 = match r with Ret _ => None | Raise _ => Some h end
  /\ do_open port s = (connect_attempt port;; ret false) s1
  /\ calls (fst (do_open port s))
     = (calls s ++ [(CClose h, raised r);
                    (CNew port, raised (snd (fe_new port w)))])%list.
Proof.
  intros Hfe Hp E Hr s1.
  assert (D : __disconnect s = (s1, Ret tt)).
  { destruct r as [[]|e].
    - exact (disconnect_ok s h w Hfe E).
    - exact (disconnect_remote_error s h w e Hfe E (Hr e eq_refl)). }
  pose proof (open_after_disconnect s s1 port Hp D) as O.
  split; [rewrite D; reflexivity|].
  split; [destruct r; destruct s; cbn in *; [reflexivity | exact Hfe]|].
  split; [exact O|].
  rewrite O, then_ret_fst.
  destruct (connect_attempt_effect s1 port) as [-> _].
  replace (world s1) with w by (destruct r; destruct s; reflexivity).
  replace (calls s1) with (calls s ++ [(CClose h, raised r)])%list
    by (destruct r; destruct s; reflexivity).
  rewrite <- app_assoc. reflexivity.
Qed.

(** C9 (as amended): on a connected shell whose [fe.close()] returns, a
    re-open whose connect fails with a [PyboardError] ends without a
    session: the old handle was released before the connect attempt and is
    not restored, and the last argument of the error is printed.  When
    [fe.close()] itself raised [RemoteIOError], the old handle is still in
    place after the failed connect. *)
Theorem failed_reopen_leaves_no_session
    (s : St) (h : Handle) (port : string) (w1 w2 : World)
    (r : result unit) (e : exn) :
  fe s = Some h ->
  port <> EmptyString ->
  fe_close h (world s) = (w1, r) ->
  fe_new port w1 = (w2, Raise e) ->
  isinstance e PyboardError = true ->
  match r with
  | Ret _ =>
      fe (fst (do_open port s)) = None
      /\ forall a, PyStr.last_item (exc_args e) = Some a ->
           do_open port s
           = (said a (logged (CNew port) (Some e) w2
                        (with_fe None (logged (CClose h) None w1 s))),
              Ret false)
  | Raise x =>
      isinstance x RemoteIOError = true -> fe (fst (do_open port s)) = Some h
  end.
Proof.
  intros Hfe Hp E N I.
  destruct r as [[]|x].
  - pose proof (disconnect_ok s h w1 Hfe E) as D.
    pose proof (open_after_disconnect s _ port Hp D) as O.
    split.
    + rewrite O, then_ret_fst.
      destruct (connect_attempt_effect
                  (with_fe None (logged (CClose h) None w1 s)) port) as [_ ->].
      cbn [world with_fe logged]. rewrite N. reflexivity.
    + intros a La. rewrite O. destruct s as [f p l o c w]. run.
      cbn in N. rewrite N. run. rewrite I, La. reflexivity.
  - intros Ix.
    pose proof (disconnect_remote_error s h w1 x Hfe E Ix) as D.
    pose proof (open_after_disconnect s _ port Hp D) as O.
    rewrite O, then_ret_fst.
    destruct (connect_attempt_effect
                (said (exc_str x) (logged (CClose h) (Some x) w1 s)) port)
      as [_ ->].
    cbn [world said logged]. rewrite N. destruct s; exact Hfe.
Qed.

(** C10 (as amended): [close] on a shell without a session prints nothing,
    logs no call and leaves the state as it was; and whenever a first
    [close] has left the shell without a session, a second [close] adds
    nothing to it. *)
Theorem close_without_session_is_noop (s : St) (a b : string) :
  (fe s = None -> do_close a s = (s, Ret false))
  /\ (fe (fst (do_close a s)) = None ->
      (do_close a;; do_close b) s = do_close a s).
Proof.
  assert (N : forall (t : St) x, fe t = None -> do_close x t = (t, Ret false)).
  { intros t x H. unfold do_close, bind. rewrite (disconnect_none t H).
    reflexivity. }
  split; [apply N|].
  intros H. unfold bind at 1.
  destruct (do_close a s) as [s1 [v|e]] eqn:E.
  - cbn in H. rewrite (N s1 b H).
    assert (V : v = false).
    { unfold do_close, bind, ret in E.
      destruct (__disconnect s) as [s2 [[]|x]]; congruence. }
    rewrite V. reflexivity.
  - reflexivity.
Qed.

(** *** Remote directory change and the prompt *)

(** C8: on a connected shell, a [cd] whose [fe.cd] call returns sets the
    prompt to the prompt text around the path that [fe.pwd()] then
    reports, so the prompt contains the new path; a [cd] that fails,
    because its argument is missing or because [fe.cd] raises an
    [IOError], prints the error message and leaves the prompt as it was. *)
Theorem cd_recomputes_prompt
    (s : St) (h : Handle) (args : string) (w1 : World) (r : result unit) :
  fe s = Some h ->
  fe_cd h args (world s) = (w1, r) ->
  (args = EmptyString ->
   do_cd args s = (said "Missing argument: <REMOTE DIR>" s, Ret false))
  /\ (args <> EmptyString ->
      match r with
      | Ret _ =>
          forall w2 p, fe_pwd h w1 = (w2, Ret p) ->
            do_cd args s
            = (with_prompt (prompt_for p)
                 (logged (CPwd h) None w2 (logged (CCd h args) None w1 s)),
               Ret false)
            /\ prompt (fst (do_cd args s)) = prompt_for p
            /\ exists pre post, prompt (fst (do_cd args s)) = pre ++ p ++ post
      | Raise e =>
          isinstance e IOError = true ->
            do_cd args s
            = (said (exc_str e) (logged (CCd h args) (Some e) w1 s), Ret false)
            /\ prompt (fst (do_cd args s)) = prompt s
            /\ stdout (fst (do_cd args s))
               = (stdout s ++ [advisory (exc_str e)])%list
      end).
Proof.
  intros Hfe E. split; [intros ->; reflexivity|].
  intros Ha. apply nonempty_true in Ha.
  destruct s as [f p0 l o c w]. cbn in Hfe, E. subst f.
  destruct r as [[]|e].
  - intros w2 p P.
    assert (D : do_cd args (mkState (Some h) p0 l o c w)
                = (with_prompt (prompt_for p)
                     (logged (CPwd h) None w2
                        (logged (CCd h args) None w1
                           (mkState (Some h) p0 l o c w))), Ret false)).
    { unfold do_cd. rewrite Ha. run. rewrite E. run. rewrite P. reflexivity. }
    rewrite D. split; [reflexivity|]. split; [reflexivity|].
    exists (Fore.BLUE ++ "mpfs [" ++ Fore.YELLOW), (Fore.BLUE ++ "]> " ++ Fore.RESET).
    reflexivity.
  - intros I.
    assert (D : do_cd args (mkState (Some h) p0 l o c w)
                = (said (exc_str e)
                     (logged (CCd h args) (Some e) w1
                        (mkState (Some h) p0 l o c w)), Ret false)).
    { unfold do_cd. rewrite Ha. run. rewrite E. run. rewrite I. reflexivity. }
    rewrite D. repeat split.
Qed.

(** Every other way for [cd] to fail (no argument, no session) also
    prints a message and keeps the prompt. *)
Lemma cd_without_effect_keeps_prompt (s : St) (args : string) :
  args = EmptyString \/ fe s = None ->
  exists msg, do_cd args s = (said msg s, Ret false).
Proof.
  intros [-> | H].
  - eexists. reflexivity.
  - destruct args as [|c a].
    + eexists. reflexivity.
    + exists not_connected. unfold do_cd. cbn [PyStr.nonempty negb].
      unfold bind. rewrite (is_open_none s H). reflexivity.
Qed.

(** *** The interactive bridge *)

(** C3: on a connected shell, with a bridge that is left either normally
    or by a keyboard interrupt while [miniterm.join] waits, [repl] makes
    exactly these calls, in this order: one [fe.teardown()], the console
    set-up, the terminal start, the join, the console clean-up, and one
    [fe.setup()].  So there is one suspend before the bridge starts and one
    resume after it is left, on the interrupt path too. *)
Theorem repl_suspends_once_resumes_once (s : St) (h : Handle) (args : string) :
  BridgeContract FE MT ->
  fe s = Some h ->
  exists o_join o_setup,
    calls (fst (do_repl args s))
    = (calls s ++ [(CTeardown h, None); (CConsoleSetup, None);
                   (CMinitermStart h, None); (CMinitermJoin h, o_join);
                   (CConsoleCleanup, None); (CSetup h, o_setup)])%list
    /\ (o_join = None
        \/ exists e, o_join = Some e /\ isinstance e KeyboardInterrupt = true)
    /\ o_join = raised (snd (miniterm_join h
                   (fst (miniterm_start h
                      (fst (console_setup (fst (fe_teardown h (world s)))))))))
    /\ fe (fst (do_repl args s)) = Some h.
Proof.
  intros B Hfe. destruct s as [f p l o c w]. cbn in Hfe. subst f.
  cbn [world]. run.
  destruct (fe_teardown h w) as [w1 [[]|e1]] eqn:E1;
    [| returns_by (teardown_returns B h) E1].
  run.
  destruct (console_setup w1) as [w2 [[]|e2]] eqn:E2;
    [| returns_by (console_setup_returns B) E2].
  run.
  destruct (miniterm_start h w2) as [w3 [[]|e3]] eqn:E3;
    [| returns_by (start_returns B h) E3].
  run.
  destruct (miniterm_join h w3) as [w4 [[]|e4]] eqn:E4; run.
  - destruct (console_cleanup w4) as [w5 [[]|e5]] eqn:E5;
      [| returns_by (console_cleanup_returns B) E5].
    run. exists None.
    destruct (fe_setup h w5) as [w6 [[]|e6]]; run;
      eexists; (split; [rewrite <- !app_assoc; reflexivity|]);
      (split; [left; reflexivity|]); split; reflexivity.
  - raises_by (join_interrupt B h) E4 K. rewrite K. run.
    destruct (console_cleanup w4) as [w5 [[]|e5]] eqn:E5;
      [| returns_by (console_cleanup_returns B) E5].
    run. exists (Some e4).
    destruct (fe_setup h w5) as [w6 [[]|e6]]; run;
      eexists; (split; [rewrite <- !app_assoc; reflexivity|]);
      (split; [right; exists e4; split; [reflexivity | exact K]|]);
      split; reflexivity.
Qed.

End Sessions.

(** ** Splitting an argument string *)

Section Splitting.

Example strip_example : PyStr.strip "  cd /lib  " = "cd /lib".
Proof. reflexivity. Qed.

Example split_example :
  PyStr.split ";" "a; b;;c" = ["a"; " b"; EmptyString; "c"]
  /\ PyStr.split " " "a  b" = ["a"; EmptyString; "b"]
  /\ PyStr.split "] " "[Errno 2] No such file" = ["[Errno 2"; "No such file"]
  /\ PyStr.split ";" EmptyString = [EmptyString].
Proof. repeat split. Qed.

Example parseline_example :
  parseline " put a.txt  b.txt " = (Some "put", Some "a.txt  b.txt", "put a.txt  b.txt")
  /\ parseline "?cd" = (Some "help", Some "cd", "help cd")
  /\ parseline "!ls" = (None, None, "!ls").
Proof. repeat split. Qed.

Lemma prefix_empty (s : string) : String.prefix EmptyString s = true.
Proof. destruct s; reflexivity. Qed.

Lemma prefix_char (c d : ascii) (s : string) :
  String.prefix (String c EmptyString) (String d s) = Ascii.eqb d c.
Proof.
  cbn. destruct (ascii_dec c d) as [->|N].
  - rewrite prefix_empty, Ascii.eqb_refl. reflexivity.
  - symmetry. apply Ascii.eqb_neq. congruence.
Qed.

(** A piece without the separator is scanned to its end. *)
Lemma split_go_free (c : ascii) (s : string) :
  forall acc, PyStr.free_of c s = true ->
  PyStr.split_go (String c EmptyString) 0 acc s
  = [string_of_list_ascii (rev acc ++ list_ascii_of_string s)].
Proof.
  induction s as [|d s IH]; intros acc F.
  - cbn. rewrite app_nil_r. reflexivity.
  - cbn [PyStr.free_of] in F. apply andb_prop in F. destruct F as [N F].
    cbn [PyStr.split_go]. rewrite prefix_char.
    apply negb_true_iff in N. rewrite N.
    rewrite (IH (d :: acc) F). cbn [rev list_ascii_of_string].
    rewrite <- app_assoc. reflexivity.
Qed.

(** A piece without the separator, then the separator: the piece is
    emitted and the scan starts afresh behind the separator. *)
Lemma split_go_sep (c : ascii) (a b : string) :
  forall acc, PyStr.free_of c a = true ->
  PyStr.split_go (String c EmptyString) 0 acc (a ++ String c b)
  = string_of_list_ascii (rev acc ++ list_ascii_of_string a)
      :: PyStr.split_go (String c EmptyString) 0 [] b.
Proof.
  induction a as [|d a IH]; intros acc F.
  - cbn [append PyStr.split_go]. rewrite prefix_char, Ascii.eqb_refl.
    cbn. rewrite app_nil_r. reflexivity.
  - cbn [PyStr.free_of] in F. apply andb_prop in F. destruct F as [N F].
    cbn [append PyStr.split_go]. rewrite prefix_char.
    apply negb_true_iff in N. rewrite N.
    rewrite (IH (d :: acc) F). cbn [rev list_ascii_of_string].
    rewrite <- app_assoc. reflexivity.
Qed.

Lemma split_one (a : string) :
  PyStr.free_of " " a = true -> PyStr.split " " a = [a].
Proof.
  intros F. unfold PyStr.split. rewrite (split_go_free " " a [] F).
  cbn [rev app]. rewrite string_of_list_ascii_of_string. reflexivity.
Qed.

Lemma split_two (a b : string) :
  PyStr.free_of " " a = true -> PyStr.free_of " " b = true ->
  PyStr.split " " (a ++ " " ++ b) = [a; b].
Proof.
  intros Fa Fb. unfold PyStr.split.
  change (a ++ " " ++ b) with (a ++ String " " b).
  rewrite (split_go_sep " " a b [] Fa), (split_go_free " " b [] Fb).
  cbn [rev app]. rewrite !string_of_list_ascii_of_string. reflexivity.
Qed.

End Splitting.

Section Transfers.
Context {Handle World : Type}.
Context {FE : MpFileExplorer Handle World}.
Context {MT : Miniterm Handle World}.
Context {OS : HostOS World}.

Local Abbreviation St := (State Handle World).

(** What [put] and [get] call for any non-empty argument string. *)
Lemma put_call (s : St) (h : Handle) (args : string) :
  fe s = Some h -> args <> EmptyString ->
  let s_args := PyStr.split " " args in
  let l := first_arg s_args in
  let r := second_arg_or s_args l in
  calls (fst (do_put args s))
  = (calls s ++ [(CPut h l r, raised (snd (fe_put h l r (world s))))])%list.
Proof.
  intros Hfe Ha. apply nonempty_true in Ha.
  destruct s as [f p l0 o c w]. cbn in Hfe. subst f.
  intros s_args l r. unfold do_put. rewrite Ha. run.
  fold s_args. fold l. fold r.
  destruct (fe_put h l r w) as [w1 [[]|e]]; run; [reflexivity|].
  destruct (isinstance e IOError); reflexivity.
Qed.

Lemma get_call (s : St) (h : Handle) (args : string) :
  fe s = Some h -> args <> EmptyString ->
  let s_args := PyStr.split " " args in
  let r := first_arg s_args in
  let l := second_arg_or s_args r in
  calls (fst (do_get args s))
  = (calls s ++ [(CGet h r l, raised (snd (fe_get h r l (world s))))])%list.
Proof.
  intros Hfe Ha. apply nonempty_true in Ha.
  destruct s as [f p l0 o c w]. cbn in Hfe. subst f.
  intros s_args r l. unfold do_get. rewrite Ha. run.
  fold s_args. fold r. fold l.
  destruct (fe_get h r l w) as [w1 [[]|e]]; run; [reflexivity|].
  destruct (isinstance e IOError); reflexivity.
Qed.

Lemma append_space_nonempty (a b : string) : a ++ " " ++ b <> EmptyString.
Proof. destruct a; discriminate. Qed.

(** C5: on a connected shell, for names [a] and [b] without a space,
    [put a] calls [fe.put(a, a)] and [put a b] calls [fe.put(a, b)];
    [get a] calls [fe.get(a, a)] and [get a b] calls [fe.get(a, b)].  Each
    command makes that one call and no other. *)
Theorem transfer_second_name_defaults_to_first
    (s : St) (h : Handle) (a b : string) :
  fe s = Some h ->
  a <> EmptyString ->
  PyStr.free_of " " a = true ->
  PyStr.free_of " " b = true ->
  calls (fst (do_put a s))
  = (calls s ++ [(CPut h a a, raised (snd (fe_put h a a (world s))))])%list
  /\ calls (fst (do_put (a ++ " " ++ b) s))
     = (calls s ++ [(CPut h a b, raised (snd (fe_put h a b (world s))))])%list
  /\ calls (fst (do_get a s))
     = (calls s ++ [(CGet h a a, raised (snd (fe_get h a a (world s))))])%list
  /\ calls (fst (do_get (a ++ " " ++ b) s))
     = (calls s ++ [(CGet h a b, raised (snd (fe_get h a b (world s))))])%list.
Proof.
  intros Hfe Ha Fa Fb.
  pose proof (put_call s h a Hfe Ha) as P1.
  pose proof (put_call s h _ Hfe (append_space_nonempty a b)) as P2.
  pose proof (get_call s h a Hfe Ha) as G1.
  pose proof (get_call s h _ Hfe (append_space_nonempty a b)) as G2.
  cbv zeta in P1, P2, G1, G2.
  rewrite (split_one a Fa) in P1, G1.
  rewrite (split_two a b Fa Fb) in P2, G2.
  repeat split; assumption.
Qed.

End Transfers.

(** ** Failures stay inside the dispatcher *)

Section Handled.
Context {Handle World : Type}.
Context {FE : MpFileExplorer Handle World}.
Context {MT : Miniterm Handle World}.
Context {OS : HostOS World}.

Local Abbreviation St := (State Handle World).

Lemma last_item_nonempty {A} (xs : list A) :
  xs <> [] -> exists a, PyStr.last_item xs = Some a.
Proof.
  induction xs as [|x xs IH]; [congruence|]. intros _.
  destruct xs as [|y ys]; [exists x; reflexivity|].
  destruct IH as [a Ha]; [discriminate|]. exists a. exact Ha.
Qed.

Lemma for_each_write {A} (g : A -> string) (body : A -> M unit) (xs : list A) :
  (forall x (s : St), body x s = write (g x) s) ->
  forall s : St, for_each xs body s = (wrote (map g xs) s, Ret tt).
Proof.
  intros H. induction xs as [|x xs IH]; intros s.
  - cbn. unfold ret, wrote. rewrite app_nil_r, state_eta. reflexivity.
  - cbn [for_each map]. unfold bind. rewrite H. unfold write at 1.
    rewrite IH. unfold wrote. cbn [fe prompt lastcmd stdout calls world].
    rewrite <- app_assoc. reflexivity.
Qed.

End Handled.

Section Commands.
Context {Handle World : Type}.
Context {FE : MpFileExplorer Handle World}.
Context {MT : Miniterm Handle World}.
Context {OS : HostOS World}.
Hypothesis C : Contract FE MT.

Local Abbreviation St := (State Handle World).

Lemma do_cd_handled (args : string) : handled (do_cd args).
Proof.
  intros [f p l o c w]. destruct args as [|a args]; [cbn; finish|].
  destruct f as [h|]; [|cbn; finish].
  unfold do_cd. run.
  destruct (fe_cd h (String a args) w) as [w1 [[]|e]] eqn:E; run.
  - destruct (fe_pwd h w1) as [w2 [q|e2]] eqn:P;
      [| returns_by (pwd_returns C h) P].
    run. finish.
  - raises_by (cd_raises C h (String a args)) E K. rewrite K. run. finish.
Qed.

Lemma do_exit_handled (args : string) :
  handled (@do_exit Handle World args).
Proof. intros [f p l o c w]. cbn. finish. Qed.

Lemma default_handled (line : string) :
  handled (@default Handle World line).
Proof. intros [f p l o c w]. cbn. finish. Qed.

Lemma do_help_handled (arg : string) :
  handled (do_help (Handle:=Handle) arg).
Proof.
  intros [f p l o c w]. unfold do_help, bind.
  rewrite (for_each_write (fun x => x) write (help_text arg)
             (fun _ _ => eq_refl)).
  cbn. finish.
Qed.

Lemma do_pwd_handled (args : string) : handled (do_pwd args).
Proof.
  intros [f p l o c w]. destruct f as [h|]; [|cbn; finish].
  unfold do_pwd. run.
  destruct (fe_pwd h w) as [w1 [q|e]] eqn:P; [| returns_by (pwd_returns C h) P].
  run. finish.
Qed.

Lemma do_md_handled (args : string) : handled (do_md args).
Proof.
  intros [f p l o c w]. destruct args as [|a args]; [cbn; finish|].
  destruct f as [h|]; [|cbn; finish].
  unfold do_md. run.
  destruct (fe_md h (String a args) w) as [w1 [[]|e]] eqn:E; run.
  - finish.
  - raises_by (md_raises C h (String a args)) E K. rewrite K. run. finish.
Qed.

Lemma do_rm_handled (args : string) : handled (do_rm args).
Proof.
  intros [f p l o c w]. destruct args as [|a args]; [cbn; finish|].
  destruct f as [h|]; [|cbn; finish].
  unfold do_rm. run.
  destruct (fe_rm h (String a args) w) as [w1 [[]|e]] eqn:E; run.
  - finish.
  - raises_by (rm_raises C h (String a args)) E K. rewrite K. run. finish.
Qed.

Lemma do_cat_handled (args : string) : handled (do_cat args).
Proof.
  intros [f p l o c w]. destruct args as [|a args]; [cbn; finish|].
  destruct f as [h|]; [|cbn; finish].
  unfold do_cat. run.
  destruct (fe_gets h (String a args) w) as [w1 [t|e]] eqn:E; run.
  - finish.
  - raises_by (gets_raises C h (String a args)) E K. rewrite K. run. finish.
Qed.

Lemma do_put_handled (args : string) : handled (do_put args).
Proof.
  intros [f p l o c w]. destruct args as [|a args]; [cbn; finish|].
  destruct f as [h|]; [|cbn; finish].
  unfold do_put. run.
  set (lf := first_arg _). set (rf := second_arg_or _ _).
  destruct (fe_put h lf rf w) as [w1 [[]|e]] eqn:E; run.
  - finish.
  - raises_by (put_raises C h lf rf) E K. rewrite K. run. finish.
Qed.

Lemma do_get_handled (args : string) : handled (do_get args).
Proof.
  intros [f p l o c w]. destruct args as [|a args]; [cbn; finish|].
  destruct f as [h|]; [|cbn; finish].
  unfold do_get. run.
  set (rf := first_arg _). set (lf := second_arg_or _ _).
  destruct (fe_get h rf lf w) as [w1 [[]|e]] eqn:E; run.
  - finish.
  - raises_by (get_raises C h rf lf) E K. rewrite K. run. finish.
Qed.

Lemma do_ls_handled (args : string) : handled (do_ls args).
Proof.
  intros [f p l o c w]. destruct f as [h|]; [|cbn; finish].
  unfold do_ls. run.
  destruct (fe_ls h w) as [w1 [files|e]] eqn:E; run.
  - destruct (fe_pwd h w1) as [w2 [q|e2]] eqn:P;
      [| returns_by (pwd_returns C h) P].
    run.
    erewrite (for_each_write
                (fun f : string * string =>
                   (if String.eqb (snd f) "F"
                    then Fore.CYAN ++ ls_line (fst f) (snd f) ++ Fore.RESET
                    else Fore.MAGENTA ++ ls_line (fst f) (snd f) ++ Fore.RESET)
                   ++ PyStr.nl)).
    + run. finish.
    + intros [elem ty] s. cbn [fst snd]. destruct (String.eqb ty "F"); reflexivity.
  - raises_by (ls_raises C h) E K. rewrite K. run. finish.
Qed.

Lemma do_lls_handled (args : string) :
  handled (do_lls (Handle:=Handle) args).
Proof.
  intros [f p l o c w]. unfold do_lls. run.
  destruct (os_listdir w) as [w1 [files|e]] eqn:E; run.
  - erewrite (for_each_write (fun f : string => (" " ++ f) ++ PyStr.nl)).
    + run. finish.
    + intros x s. reflexivity.
  - finish.
Qed.

Lemma do_lcd_handled (args : string) :
  handled (do_lcd (Handle:=Handle) args).
Proof.
  intros [f p l o c w]. destruct args as [|a args]; [cbn; finish|].
  unfold do_lcd. run.
  destruct (os_chdir (String a args) w) as [w1 [[]|e]] eqn:E; run.
  - finish.
  - destruct (isinstance e OSError); run; finish.
Qed.

Lemma do_lpwd_handled (args : string) :
  handled (do_lpwd (Handle:=Handle) args).
Proof.
  intros [f p l o c w]. unfold do_lpwd. run.
  destruct (os_getcwd w) as [w1 [q|e]] eqn:E; run; finish.
Qed.

(** A device-protocol error has a last argument to print. *)
Ltac last_arg_of D a K :=
  let I := fresh "I" in
  destruct D as [I D]; destruct (last_item_nonempty _ D) as [a K];
  rewrite ?I, ?K.

Lemma do_close_handled (args : string) : handled (do_close args).
Proof.
  intros [f p l o c w]. destruct f as [h|]; [|cbn; finish].
  unfold do_close. run.
  destruct (fe_close h w) as [w1 [[]|e]] eqn:E; run.
  - finish.
  - raises_by (close_raises C h) E K. rewrite K. run. finish.
Qed.

Lemma connect_attempt_handled (port : string) : handled (connect_attempt port).
Proof.
  intros [f p l o c w]. run.
  destruct (fe_new port w) as [w1 [h|e]] eqn:E; run.
  - finish.
  - raises_by (new_raises C port) E D. last_arg_of D a K. run. finish_with K.
Qed.

Lemma do_open_handled (args : string) : handled (do_open args).
Proof.
  intros [f p l o c w]. destruct args as [|a args]; [cbn; finish|].
  assert (N : PyStr.nonempty (String a args) = true) by reflexivity.
  revert N. generalize (String a args). intros port N.
  destruct f as [h|].
  - unfold do_open. rewrite N. run.
    destruct (fe_close h w) as [w1 [[]|x]] eqn:X; run.
    + destruct (fe_new port w1) as [w2 [h'|e]] eqn:E; run.
      * finish.
      * raises_by (new_raises C port) E D. last_arg_of D b K. run.
        finish_with K.
    + raises_by (close_raises C h) X Kx. rewrite Kx. run.
      destruct (fe_new port w1) as [w2 [h'|e]] eqn:E; run.
      * finish.
      * raises_by (new_raises C port) E D. last_arg_of D b K. run.
        finish_with K.
  - unfold do_open. rewrite N. run.
    destruct (fe_new port w) as [w2 [h'|e]] eqn:E; run.
    + finish.
    + raises_by (new_raises C port) E D. last_arg_of D b K. run.
      finish_with K.
Qed.

(** The two [except] clauses of [do_exec] on an exception the contract
    allows: the first prints [str(e)], the second the last argument. *)
Ltac exec_clauses K :=
  let IO := fresh "IO" in let D := fresh "D" in
  let a := fresh "a" in let Ka := fresh "Ka" in
  match type of K with
  | isinstance ?e IOError = true \/ _ =>
      destruct (isinstance e IOError) eqn:IO; run;
      [ finish
      | destruct K as [K|D]; [congruence|];
        last_arg_of D a Ka; run; finish_with Ka ]
  end.

Lemma do_exec_handled (args : string) : handled (do_exec args).
Proof.
  intros [f p l o c w]. destruct args as [|a args]; [cbn; finish|].
  destruct f as [h|]; [|cbn; finish].
  unfold do_exec. run.
  destruct (fe_exec_raw_no_follow h (String a args ++ PyStr.nl) w)
    as [w1 [[]|e]] eqn:E; run.
  - destruct (fe_follow h w1) as [w2 [chunks [[out err]|e]]] eqn:F; run.
    + destruct (PyStr.nonempty err); run; finish.
    + pose proof (@follow_raises _ _ _ _ C h w1 e) as K. rewrite F in K.
      specialize (K eq_refl). unfold io_error in K. exec_clauses K.
  - raises_by (exec_raises C h (String a args ++ PyStr.nl)) E K.
    exec_clauses K.
Qed.

Lemma do_repl_handled (args : string) : handled (do_repl args).
Proof.
  intros [f p l o c w]. destruct f as [h|]; [|cbn; finish].
  pose proof (bridge C) as B.
  unfold do_repl. run.
  destruct (fe_teardown h w) as [w1 [[]|e1]] eqn:E1;
    [| returns_by (teardown_returns B h) E1].
  run.
  destruct (console_setup w1) as [w2 [[]|e2]] eqn:E2;
    [| returns_by (console_setup_returns B) E2].
  run.
  destruct (miniterm_start h w2) as [w3 [[]|e3]] eqn:E3;
    [| returns_by (start_returns B h) E3].
  run.
  destruct (miniterm_join h w3) as [w4 [[]|e4]] eqn:E4; run.
  - destruct (console_cleanup w4) as [w5 [[]|e5]] eqn:E5;
      [| returns_by (console_cleanup_returns B) E5].
    run.
    destruct (fe_setup h w5) as [w6 [[]|e6]] eqn:E6;
      [| returns_by (setup_returns C h) E6].
    run. finish.
  - raises_by (join_interrupt B h) E4 K. rewrite K. run.
    destruct (console_cleanup w4) as [w5 [[]|e5]] eqn:E5;
      [| returns_by (console_cleanup_returns B) E5].
    run.
    destruct (fe_setup h w5) as [w6 [[]|e6]] eqn:E6;
      [| returns_by (setup_returns C h) E6].
    run. finish.
Qed.

(** Every method that [getattr(self, 'do_' + cmd)] can find. *)
Lemma getattr_do_handled (cmd : string) (func : string -> M bool) :
  getattr_do cmd = Some func -> forall arg, handled (func arg).
Proof.
  unfold getattr_do.
  repeat match goal with
         | |- (if ?b then _ else _) = _ -> _ => destruct b
         end;
    intros Q arg; inversion Q; subst;
    auto using do_exit_handled, do_open_handled, do_close_handled,
      do_ls_handled, do_pwd_handled, do_cd_handled, do_md_handled,
      do_lls_handled, do_lcd_handled, do_lpwd_handled, do_put_handled,
      do_get_handled, do_rm_handled, do_cat_handled, do_exec_handled,
      do_repl_handled, do_help_handled.
Qed.

(** Changing [lastcmd] first does not matter to what [handled] observes. *)
Lemma handled_from (A : Type) (m : M A) (s s0 : St) :
  handled m -> calls s0 = calls s -> stdout s0 = stdout s ->
  exists nc no,
    calls (fst (m s0)) = (calls s ++ nc)%list
    /\ stdout (fst (m s0)) = (stdout s ++ no)%list
    /\ (returned (snd (m s0)) = false -> no_handle_call nc)
    /\ (forall c e, In (c, Some e) nc -> is_handle_call c = true ->
        exists msg, message_of e msg /\ In (advisory msg) no).
Proof.
  intros H Ec Eo. destruct (H s0) as (nc & no & P). rewrite Ec, Eo in P.
  exists nc, no. exact P.
Qed.

Lemma onecmd_parsed_handled (cmd arg : option string) (line : string) :
  handled (onecmd_parsed cmd arg line).
Proof.
  intros s. unfold onecmd_parsed.
  destruct cmd as [cmd|]; [| apply default_handled].
  destruct arg as [arg|]; [| apply default_handled].
  pose (s2 := fun l : string =>
                mkState (fe s) (prompt s) l (stdout s) (calls s) (world s)).
  assert (K : forall (l : string) (k : M bool),
             handled k ->
             exists nc no,
               calls (fst (k (s2 l))) = (calls s ++ nc)%list
               /\ stdout (fst (k (s2 l))) = (stdout s ++ no)%list
               /\ (returned (snd (k (s2 l))) = false -> no_handle_call nc)
               /\ (forall c e, In (c, Some e) nc -> is_handle_call c = true ->
                   exists msg, message_of e msg /\ In (advisory msg) no)).
  { intros l k H. exact (handled_from bool k s (s2 l) H eq_refl eq_refl). }
  assert (H : handled (if String.eqb cmd EmptyString
                       then default line
                       else match getattr_do cmd with
                            | Some func => func arg
                            | None => default line
                            end)).
  { destruct (String.eqb cmd EmptyString); [apply default_handled|].
    destruct (getattr_do cmd) as [func|] eqn:G;
      [exact (getattr_do_handled cmd func G arg) | apply default_handled]. }
  destruct (String.eqb line "EOF").
  - exact (K EmptyString _ H).
  - exact (K line _ H).
Qed.

Lemma onecmd_handled (line : string) : handled (onecmd line).
Proof.
  intros s. unfold onecmd.
  destruct (parseline line) as [[cmd arg] line'].
  destruct (PyStr.nonempty line'); [apply onecmd_parsed_handled|].
  unfold emptyline, bind, get_lastcmd.
  destruct (PyStr.nonempty (lastcmd s)).
  - unfold onecmd_again.
    destruct (parseline (lastcmd s)) as [[cmd2 arg2] line2].
    destruct (PyStr.nonempty line2); [apply onecmd_parsed_handled|].
    destruct s as [f p l o c w]. cbn. finish.
  - destruct s as [f p l o c w]. cbn. finish.
Qed.

End Commands.

(** ** The dispatcher and the batch runner *)

Section Dispatcher.
Context {Handle World : Type}.
Context {FE : MpFileExplorer Handle World}.
Context {MT : Miniterm Handle World}.
Context {OS : HostOS World}.

Local Abbreviation St := (State Handle World).

(** A line that [parseline] cannot parse, or whose command name has no
    [do_] method, is answered by [default]: one line on standard output. *)
Lemma unknown_command_returns (line : string) (s : St)
    (cmd arg : option string) (line' : string) :
  parseline line = (cmd, arg, line') ->
  PyStr.nonempty line' = true ->
  cmd = None \/ cmd = Some EmptyString
  \/ (exists c, cmd = Some c /\ getattr_do (Handle:=Handle) c = None) ->
  returned (snd (onecmd line s)) = true
  /\ stdout (fst (onecmd line s))
     = (stdout s ++ [("*** Unknown syntax: " ++ line' ++ PyStr.nl)%string])%list
  /\ calls (fst (onecmd line s)) = calls s.
Proof.
  intros P N U. unfold onecmd. rewrite P, N. unfold onecmd_parsed.
  destruct cmd as [cmd|]; [| repeat split].
  destruct arg as [arg|]; [| repeat split].
  destruct U as [U | [U | (c & U & G)]]; [discriminate | |];
    inversion U; subst; clear U.
  - destruct (String.eqb line' "EOF"); repeat split.
  - rewrite G.
    destruct (String.eqb line' "EOF"); destruct (String.eqb c EmptyString);
      repeat split.
Qed.

(** The commands that take an argument report its absence and return. *)
Lemma missing_argument_returns (s : St) :
  Forall (fun f : string -> M bool =>
            exists msg, f EmptyString s = (said msg s, Ret false))
         [do_open; do_cd; do_md; do_lcd; do_put; do_get; do_rm; do_cat; do_exec].
Proof. repeat constructor; eexists; reflexivity. Qed.

(** C7: under the contract of the collaborators, whatever line the
    dispatcher is given and whatever the state, every session-handle call
    that raises is answered by the advisory with that exception's message
    on standard output, and an exception leaves the dispatcher only when
    the command made no session-handle call at all, so no failure of the
    session handle gets past it.  A line that cannot be parsed or names no
    command is answered by the unknown-syntax line and returns; a command
    without its argument prints its advisory and returns. *)
Theorem dispatcher_contains_failures (line : string) (s : St) :
  Contract FE MT ->
  (exists nc no,
      calls (fst (onecmd line s)) = (calls s ++ nc)%list
      /\ stdout (fst (onecmd line s)) = (stdout s ++ no)%list
      /\ (returned (snd (onecmd line s)) = false -> no_handle_call nc)
      /\ (forall c e, In (c, Some e) nc -> is_handle_call c = true ->
          exists msg, message_of e msg /\ In (advisory msg) no))
  /\ (forall cmd arg line',
        parseline line = (cmd, arg, line') ->
        PyStr.nonempty line' = true ->
        cmd = None \/ cmd = Some EmptyString
        \/ (exists c, cmd = Some c /\ getattr_do (Handle:=Handle) c = None) ->
        returned (snd (onecmd line s)) = true)
  /\ Forall (fun f : string -> M bool =>
               exists msg, f EmptyString s = (said msg s, Ret false))
            [do_open; do_cd; do_md; do_lcd; do_put; do_get; do_rm; do_cat;
             do_exec].
Proof.
  intros C. split; [exact (onecmd_handled C line s)|].
  split; [| exact (missing_argument_returns s)].
  intros cmd arg line' P N U.
  exact (proj1 (unknown_command_returns line s cmd arg line' P N U)).
Qed.

Lemma bind_ext (A B : Type) (m : M A) (k k' : A -> M B) (s : St) :
  (forall a s', k a s' = k' a s') -> bind m k s = bind m k' s.
Proof.
  intros H. unfold bind. destruct (m s) as [s1 [a|e]]; [apply H | reflexivity].
Qed.

(** The loop of [main] over the pieces is the dispatch of the kept lines. *)
Lemma batch_loop (pieces : list string) (s : St) :
  for_each pieces
    (fun cmd =>
       let scmd := PyStr.strip cmd in
       if PyStr.nonempty scmd && negb (PyStr.startswith "#" scmd)
       then onecmd scmd;; ret tt
       else ret tt) s
  = dispatch_all
      (filter (fun l => PyStr.nonempty l && negb (PyStr.startswith "#" l))
              (map PyStr.strip pieces)) s.
Proof.
  set (keep := fun l => PyStr.nonempty l && negb (PyStr.startswith "#" l)).
  set (body := fun cmd : string => _).
  revert s. induction pieces as [|x xs IH]; intros s; [reflexivity|].
  cbn [for_each map filter].
  assert (B : body x = if keep (PyStr.strip x)
                       then onecmd (PyStr.strip x);; ret tt
                       else ret tt) by reflexivity.
  rewrite B. destruct (keep (PyStr.strip x)).
  - change (dispatch_all (PyStr.strip x :: filter keep (map PyStr.strip xs)) s)
      with (bind (onecmd (PyStr.strip x);; ret tt)
                 (fun _ => dispatch_all (filter keep (map PyStr.strip xs))) s).
    apply bind_ext. intros _ s'. apply IH.
  - change (bind (ret tt) (fun _ : unit => for_each xs body) s)
      with (for_each xs body s).
    apply IH.
Qed.

(** One step of the dispatch: the next line runs from the state a
    returning command left; an exception ends the dispatch there. *)
Lemma dispatch_step (l : string) (rest : list string) (s : St) :
  match snd (onecmd l s) with
  | Ret _ => dispatch_all (l :: rest) s = dispatch_all rest (fst (onecmd l s))
  | Raise e => dispatch_all (l :: rest) s = (fst (onecmd l s), Raise e)
  end.
Proof.
  unfold dispatch_all. cbn [for_each]. unfold bind, ret.
  destruct (onecmd l s) as [s1 [b|e]]; reflexivity.
Qed.

(** C6 (as amended): the batch runner dispatches the stripped, non-empty,
    non-comment pieces of the [;]-separated command string in input order,
    one after the other, for as long as no command ends in an exception.
    A command that returns, whatever it printed or answered, is followed
    by the next line from the state it left, and under the contract of the
    collaborators a command in which a session-handle call raised does
    return.  The loop has no [try]: an exception that leaves a command
    ends the batch with that exception, and the lines behind it are not
    dispatched. *)
Theorem batch_runs_until_an_exception (command : list string) (s : St) :
  main_command command s = dispatch_all (batch_lines command) s
  /\ (forall l rest s0,
        match snd (onecmd l s0) with
        | Ret _ =>
            dispatch_all (l :: rest) s0 = dispatch_all rest (fst (onecmd l s0))
        | Raise e =>
            dispatch_all (l :: rest) s0 = (fst (onecmd l s0), Raise e)
        end)
  /\ (Contract FE MT ->
      forall l s0 nc c e,
        calls (fst (onecmd l s0)) = (calls s0 ++ nc)%list ->
        In (c, Some e) nc -> is_handle_call c = true ->
        returned (snd (onecmd l s0)) = true).
Proof.
  split; [apply batch_loop|]. split; [exact dispatch_step|].
  intros C l s0 nc c e Q HIn Hh.
  destruct (onecmd_handled C l s0) as (nc' & no & Q' & _ & R & _).
  rewrite Q in Q'. apply app_inv_head in Q'. subst nc'.
  destruct (returned (snd (onecmd l s0))) eqn:T; [reflexivity|].
  specialize (R eq_refl c (Some e) HIn). congruence.
Qed.

End Dispatcher.

(** ** The scripted board: instances of the theorems, and the inputs on
    which the spec's wording fails *)

Section OnTheBoard.
Import Fake.

Lemma fake_bridge : BridgeContract explorer terminal.
Proof.
  constructor; unfold never_raises, raises_only; cbn; intros;
    try reflexivity.
  destruct (interrupted w); cbn in *; [inversion H; reflexivity | discriminate].
Qed.

Lemma fake_contract : Contract explorer terminal.
Proof.
  constructor; try exact fake_bridge;
    unfold never_raises, raises_only, io_error, device_error, ok;
    cbn; intros; try reflexivity; try discriminate.
  - destruct (connect_fails w); cbn in *; [inversion H | discriminate].
    split; [reflexivity | discriminate].
  - destruct (close_fails w); cbn in *; [inversion H; reflexivity | discriminate].
  - destruct (has_dir d w); cbn in *; [discriminate | inversion H; reflexivity].
Qed.

(** C1, where the claim as written fails: without a session, [cd] with no
    argument prints the missing-argument advisory, not the not-connected
    one; and [pwd] prints nothing and raises [AttributeError]. *)
Lemma disconnected_advisory_counterexample :
  stdout (fst (do_cd EmptyString (fresh_shell sound)))
  = [advisory "Missing argument: <REMOTE DIR>"]
  /\ stdout (fst (do_cd EmptyString (fresh_shell sound)))
     <> [advisory not_connected]
  /\ stdout (fst (do_pwd EmptyString (fresh_shell sound))) = []
  /\ option_map exc_class (raised (snd (do_pwd EmptyString (fresh_shell sound))))
     = Some AttributeError.
Proof. repeat split. discriminate. Qed.

Lemma disconnected_command_prints_advisory_witness :
  fe (fresh_shell sound) = None
  /\ do_ls EmptyString (fresh_shell sound)
     = (said not_connected (fresh_shell sound), Ret false)
  /\ do_cd "/lib" (fresh_shell sound)
     = (said not_connected (fresh_shell sound), Ret false).
Proof.
  split; [reflexivity|].
  destruct (disconnected_command_prints_advisory (fresh_shell sound) "/lib" ltac:(reflexivity))
    as (_ & _ & H).
  split; [reflexivity|]. apply H. discriminate.
Defined.

(** C2, where the claim as written fails: [close] on a connected shell
    whose [fe.close()] raises [RemoteIOError] prints the message and is
    still connected through the same handle. *)
Lemma failed_close_counterexample :
  option_map exc_class (raised (snd (fe_close 0 stuck))) = Some RemoteIOError
  /\ stdout (fst (do_close EmptyString (connected_shell stuck)))
     = [advisory "Device communication failed"]
  /\ fe (fst (do_close EmptyString (connected_shell stuck))) = Some 0
  /\ fe (fst (do_close EmptyString (connected_shell stuck))) <> None.
Proof. repeat split. discriminate. Qed.

Lemma failed_close_keeps_session_witness :
  fe (connected_shell stuck) = Some 0
  /\ fe_close 0 (world (connected_shell stuck)) = (stuck, Raise close_failed)
  /\ fe (fst (do_close EmptyString (connected_shell stuck))) = Some 0
  /\ fe (fst (do_open "COM2" (connected_shell stuck))) = Some 1.
Proof.
  split; [reflexivity|]. split; [reflexivity|].
  destruct (failed_close_keeps_session (connected_shell stuck) 0 stuck
              close_failed EmptyString "COM2" ltac:(reflexivity) ltac:(reflexivity) ltac:(reflexivity))
    as (D & F & O).
  split.
  - rewrite D. exact F.
  - destruct O as [_ O]; [discriminate|]. exact O.
Defined.

(** C3 on the board whose bridge is left by an interrupt. *)
Lemma repl_suspends_once_resumes_once_witness :
  fe (connected_shell impatient) = Some 0
  /\ map fst (calls (fst (do_repl EmptyString (connected_shell impatient))))
     = [CTeardown 0; CConsoleSetup; CMinitermStart 0; CMinitermJoin 0;
        CConsoleCleanup; CSetup 0]
  /\ option_map exc_class
       (raised (snd (miniterm_join 0 impatient))) = Some KeyboardInterrupt.
Proof.
  split; [reflexivity|].
  destruct (repl_suspends_once_resumes_once (connected_shell impatient) 0
              EmptyString fake_bridge ltac:(reflexivity)) as (oj & os & Q & _).
  split; [rewrite Q; reflexivity | reflexivity].
Defined.

(** C4, where the claim as written fails: the close call raised, the
    handle was still held when [__disconnect] was over, and the connect
    call was made all the same. *)
Lemma open_teardown_counterexample :
  fe (fst (__disconnect (connected_shell stuck))) = Some 0
  /\ calls (fst (__disconnect (connected_shell stuck)))
     = [(CClose 0, Some close_failed)]
  /\ calls (fst (do_open "COM2" (connected_shell stuck)))
     = [(CClose 0, Some close_failed); (CNew "COM2", None)].
Proof. repeat split. Qed.

Lemma open_closes_before_connecting_witness :
  fe (connected_shell sound) = Some 0
  /\ fe (fst (__disconnect (connected_shell sound))) = None
  /\ calls (fst (do_open "COM2" (connected_shell sound)))
     = [(CClose 0, None); (CNew "COM2", None)].
Proof.
  split; [reflexivity|].
  destruct (open_closes_before_connecting (connected_shell sound) 0 "COM2"
              sound (Ret tt) ltac:(reflexivity) ltac:(discriminate) ltac:(reflexivity)
              ltac:(discriminate)) as (D & F & _ & L).
  split; [rewrite D; exact F | exact L].
Defined.

(** C5 with [a.txt] and [b.txt]. *)
Lemma transfer_second_name_defaults_to_first_witness :
  map fst (calls (fst (do_put "a.txt" (connected_shell sound))))
  = [CPut 0 "a.txt" "a.txt"]
  /\ map fst (calls (fst (do_put "a.txt b.txt" (connected_shell sound))))
     = [CPut 0 "a.txt" "b.txt"]
  /\ map fst (calls (fst (do_get "a.txt" (connected_shell sound))))
     = [CGet 0 "a.txt" "a.txt"]
  /\ map fst (calls (fst (do_get "a.txt b.txt" (connected_shell sound))))
     = [CGet 0 "a.txt" "b.txt"].
Proof.
  destruct (transfer_second_name_defaults_to_first (connected_shell sound) 0
              "a.txt" "b.txt" ltac:(reflexivity) ltac:(discriminate) ltac:(reflexivity) ltac:(reflexivity))
    as (P1 & P2 & G1 & G2).
  cbn [append] in P2, G2.
  rewrite P1, P2, G1, G2. repeat split.
Defined.

(** C6, where the claim as written fails: on the shell as [main] creates
    it, the batch [pwd; lpwd] ends in the [AttributeError] of [pwd]; [lpwd]
    is never dispatched, so nothing is printed and nothing is called,
    although [lpwd] alone prints the host directory. *)
Lemma batch_stops_at_exception_counterexample :
  batch_lines ["pwd; lpwd"] = ["pwd"; "lpwd"]
  /\ option_map exc_class
       (raised (snd (main_command ["pwd; lpwd"] (fresh_shell sound))))
     = Some AttributeError
  /\ stdout (fst (main_command ["pwd; lpwd"] (fresh_shell sound))) = []
  /\ calls (fst (main_command ["pwd; lpwd"] (fresh_shell sound))) = []
  /\ stdout (fst (main_command ["lpwd"] (fresh_shell sound)))
     = ["/home" ++ PyStr.nl].
Proof. repeat split. Qed.

(** C6 on the batch of the spec: the failing [cd] is reported and [pwd]
    still runs. *)
Lemma batch_runs_until_an_exception_witness :
  batch_lines ["cd /no/such/dir; pwd"; ";# later;"; " ls "]
  = ["cd /no/such/dir"; "pwd"; "ls"]
  /\ main_command ["cd /no/such/dir; pwd"] (connected_shell sound)
     = dispatch_all ["cd /no/such/dir"; "pwd"] (connected_shell sound)
  /\ dispatch_all ["cd /no/such/dir"; "pwd"] (connected_shell sound)
     = dispatch_all ["pwd"]
         (fst (onecmd "cd /no/such/dir" (connected_shell sound)))
  /\ stdout (fst (main_command ["cd /no/such/dir; pwd"] (connected_shell sound)))
     = [advisory "No such directory: /no/such/dir"; "/" ++ PyStr.nl].
Proof.
  split; [reflexivity|].
  destruct (batch_runs_until_an_exception (FE:=explorer) (MT:=terminal)
              (OS:=host) ["cd /no/such/dir; pwd"] (connected_shell sound))
    as (Q & S & _).
  split; [exact Q|]. split; [| reflexivity].
  exact (S "cd /no/such/dir" ["pwd"] (connected_shell sound)).
Defined.

(** C7 on a [cd] to a directory the board does not have. *)
Lemma dispatcher_contains_failures_witness :
  returned (snd (onecmd "cd /nowhere" (connected_shell sound))) = true
  /\ exists nc no,
       calls (fst (onecmd "cd /nowhere" (connected_shell sound)))
       = (calls (connected_shell sound) ++ nc)%list
       /\ stdout (fst (onecmd "cd /nowhere" (connected_shell sound)))
          = (stdout (connected_shell sound) ++ no)%list
       /\ forall c e, In (c, Some e) nc -> is_handle_call c = true ->
          exists msg, message_of e msg /\ In (advisory msg) no.
Proof.
  split; [reflexivity|].
  destruct (dispatcher_contains_failures "cd /nowhere" (connected_shell sound)
              fake_contract) as ((nc & no & Qc & Qo & _ & P) & _).
  exists nc, no. repeat split; assumption.
Defined.

(** C8 on a [cd] to [/lib], which the board has. *)
Lemma cd_recomputes_prompt_witness :
  fe (connected_shell sound) = Some 0
  /\ prompt (fst (do_cd "/lib" (connected_shell sound))) = prompt_for "/lib"
  /\ prompt (fst (do_cd "/nowhere" (connected_shell sound)))
     = prompt (connected_shell sound).
Proof.
  split; [reflexivity|]. split.
  - pose proof (proj2 (cd_recomputes_prompt (connected_shell sound) 0 "/lib"
                         (chdir "/lib" sound) (Ret tt) ltac:(reflexivity)
                         ltac:(reflexivity)) ltac:(discriminate)) as H.
    cbn iota in H.
    exact (proj1 (proj2 (H (chdir "/lib" sound) "/lib" ltac:(reflexivity)))).
  - pose proof (proj2 (cd_recomputes_prompt (connected_shell sound) 0 "/nowhere"
                         sound (Raise (no_such_dir "/nowhere"))
                         ltac:(reflexivity) ltac:(reflexivity))
                      ltac:(discriminate)) as H.
    cbn iota in H. exact (proj1 (proj2 (H ltac:(reflexivity)))).
Defined.

(** C9, where the claim as written fails: the close raised
    [RemoteIOError], the connect raised [PyboardError], and the shell is
    still connected through the old handle. *)
Lemma failed_reopen_counterexample :
  option_map exc_class (raised (snd (fe_new "COM2" dead))) = Some PyboardError
  /\ fe (fst (do_open "COM2" (connected_shell dead))) = Some 0
  /\ fe (fst (do_open "COM2" (connected_shell dead))) <> None.
Proof. repeat split. discriminate. Qed.

Lemma failed_reopen_leaves_no_session_witness :
  fe (connected_shell deaf) = Some 0
  /\ fe (fst (do_open "COM2" (connected_shell deaf))) = None
  /\ stdout (fst (do_open "COM2" (connected_shell deaf)))
     = [advisory "could not enter raw repl"].
Proof.
  split; [reflexivity|].
  pose proof (failed_reopen_leaves_no_session (connected_shell deaf) 0 "COM2"
                deaf deaf (Ret tt) no_raw_repl ltac:(reflexivity) ltac:(discriminate)
                ltac:(reflexivity) ltac:(reflexivity) ltac:(reflexivity)) as H.
  cbn iota in H. destruct H as [F Q].
  split; [exact F|]. rewrite (Q _ ltac:(reflexivity)). reflexivity.
Defined.

(** C10, where the claim as written fails: when [fe.close()] raises
    [RemoteIOError], a second [close] calls it again and prints again. *)
Lemma close_twice_counterexample :
  (do_close EmptyString;; do_close EmptyString) (connected_shell stuck)
  <> do_close EmptyString (connected_shell stuck)
  /\ List.length (calls (fst ((do_close EmptyString;; do_close EmptyString)
                                (connected_shell stuck)))) = 2
  /\ List.length (calls (fst (do_close EmptyString (connected_shell stuck)))) = 1.
Proof. repeat split. discriminate. Qed.

Lemma close_without_session_is_noop_witness :
  do_close EmptyString (fresh_shell sound) = (fresh_shell sound, Ret false)
  /\ (do_close EmptyString;; do_close EmptyString) (connected_shell sound)
     = do_close EmptyString (connected_shell sound).
Proof.
  split.
  - exact (proj1 (close_without_session_is_noop (FE:=explorer)
                    (fresh_shell sound) EmptyString EmptyString)
                 ltac:(reflexivity)).
  - exact (proj2 (close_without_session_is_noop (FE:=explorer)
                    (connected_shell sound) EmptyString EmptyString)
                 ltac:(reflexivity)).
Defined.

End OnTheBoard.

(** * Beyond the claims: the rest of the shell *)

(** ** What a command leaves alone *)

Section Keeping.
Context {Handle World : Type}.
Context {FE : MpFileExplorer Handle World}.
Context {MT : Miniterm Handle World}.
Context {OS : HostOS World}.

Local Abbreviation St := (State Handle World).
Local Abbreviation M := (@M Handle World).

Lemma shell_only_fe : shell_only (@fe Handle World).
Proof. intros f p l o c w o' c' w'. reflexivity. Qed.

Lemma shell_only_prompt : shell_only (@prompt Handle World).
Proof. intros f p l o c w o' c' w'. reflexivity. Qed.

Lemma shell_only_lastcmd : shell_only (@lastcmd Handle World).
Proof. intros f p l o c w o' c' w'. reflexivity. Qed.

Lemma keeps_ret {X A} (obs : St -> X) (a : A) : keeps obs (ret a).
Proof. intros s. reflexivity. Qed.

Lemma keeps_raise {X A} (obs : St -> X) (e : exn) : keeps obs (raise (A:=A) e).
Proof. intros s. reflexivity. Qed.

Lemma keeps_bind {X A B} (obs : St -> X) (m : M A) (k : A -> M B) :
  keeps obs m -> (forall a, keeps obs (k a)) -> keeps obs (bind m k).
Proof.
  intros Hm Hk s. unfold bind. specialize (Hm s).
  destruct (m s) as [s1 [a|e]]; cbn in *; [|exact Hm].
  rewrite (Hk a s1). exact Hm.
Qed.

Lemma keeps_try_except {X A} (obs : St -> X) (body : M A)
    (clauses : list (ExcClass * (exn -> M A))) :
  keeps obs body ->
  Forall (fun ch => forall e, keeps obs (snd ch e)) clauses ->
  keeps obs (try_except body clauses).
Proof.
  intros Hb Hc s. unfold try_except. specialize (Hb s).
  destruct (body s) as [s1 [a|e]]; cbn in *; [exact Hb|].
  assert (F : forall h, find_clause e clauses = Some h -> keeps obs h).
  { clear Hb. induction Hc as [|[c0 h0] rest H0 _ IH]; cbn; [discriminate|].
    intros h. destruct (isinstance e c0); [|exact (IH h)].
    intros Q. inversion Q; subst. apply H0. }
  destruct (find_clause e clauses) as [h|]; cbn; [|exact Hb].
  rewrite (F h eq_refl s1). exact Hb.
Qed.

Lemma keeps_call {X A} (obs : St -> X) (c : Call Handle) (op : ext World A) :
  shell_only obs -> keeps obs (call c op).
Proof.
  intros H [f p l o cs w]. unfold call. cbn [world].
  destruct (op w) as [w1 r]. cbn. apply H.
Qed.

Lemma keeps_write {X} (obs : St -> X) (x : string) :
  shell_only obs -> keeps obs (write x).
Proof. intros H [f p l o cs w]. cbn. apply H. Qed.

Lemma keeps_print {X} (obs : St -> X) (x : string) :
  shell_only obs -> keeps obs (print x).
Proof. intros H. apply keeps_write. exact H. Qed.

Lemma keeps_error {X} (obs : St -> X) (msg : string) :
  shell_only obs -> keeps obs (__error msg).
Proof. intros H. apply keeps_print. exact H. Qed.

Lemma keeps_follow {X} (obs : St -> X) (h : Handle) :
  shell_only obs -> keeps obs (follow h).
Proof.
  intros H [f p l o cs w]. unfold follow. cbn [world].
  destruct (fe_follow h w) as [w1 [chunks r]]. cbn. apply H.
Qed.

Lemma keeps_for_each {X A} (obs : St -> X) (body : A -> M unit) (xs : list A) :
  (forall x, keeps obs (body x)) -> keeps obs (for_each xs body).
Proof.
  intros H. induction xs as [|x xs IH]; cbn [for_each].
  - apply keeps_ret.
  - apply keeps_bind; [apply H | intros _; exact IH].
Qed.

Lemma keeps_get_fe {X} (obs : St -> X) : keeps obs get_fe.
Proof. intros s. reflexivity. Qed.

Lemma keeps_fe_attr {X} (obs : St -> X) (name : string) :
  keeps obs (fe_attr name).
Proof. intros s. unfold fe_attr, bind, get_fe. destruct (fe s); reflexivity. Qed.

Lemma keeps_is_open {X} (obs : St -> X) :
  shell_only obs -> keeps obs __is_open.
Proof.
  intros H. unfold __is_open. apply keeps_bind; [apply keeps_get_fe|].
  intros [h|]; [apply keeps_ret|].
  apply keeps_bind; [apply keeps_error; exact H | intros; apply keeps_ret].
Qed.

Lemma keeps_str_last_arg {X} (obs : St -> X) (e : exn) :
  keeps obs (str_last_arg e).
Proof.
  unfold str_last_arg. destruct (PyStr.last_item (exc_args e));
    [apply keeps_ret | apply keeps_raise].
Qed.

End Keeping.

(** Breaks a [keeps] goal down along the structure of the command. *)
Ltac keep H :=
  repeat first
    [ apply keeps_ret
    | apply keeps_raise
    | apply keeps_fe_attr
    | apply keeps_str_last_arg
    | apply keeps_get_fe
    | apply keeps_is_open; exact H
    | apply keeps_error; exact H
    | apply keeps_print; exact H
    | apply keeps_write; exact H
    | apply keeps_call; exact H
    | apply keeps_follow; exact H
    | apply keeps_for_each; intros
    | apply keeps_bind; [|intros]
    | apply keeps_try_except; [|repeat constructor; cbn [snd]; intros]
    | match goal with
      | |- keeps _ (if ?b then _ else _) => destruct b
      | |- keeps _ (let (_, _) := ?p in _) => destruct p
      | |- keeps _ (match ?o with _ => _ end) => destruct o
      end ].

Section Frame.
Context {Handle World : Type}.
Context {FE : MpFileExplorer Handle World}.
Context {MT : Miniterm Handle World}.
Context {OS : HostOS World}.

Local Abbreviation St := (State Handle World).

Lemma keeps_connect_prompt (port : string) :
  keeps (@prompt Handle World) (__connect port).
Proof.
  pose proof (@shell_only_prompt Handle World) as H.
  unfold __connect, __disconnect. keep H; intros s; reflexivity.
Qed.

(** X1: of the methods the dispatcher can reach, only [do_cd] changes the
    prompt and only [do_open] and [do_close] change the session field;
    none of them changes [lastcmd].  This holds from every state and
    whatever the collaborators answer.  In particular a re-open leaves the
    prompt of the old session's directory in place. *)
Theorem only_cd_moves_the_prompt
    (cmd : string) (func : string -> M bool) (arg : string) :
  getattr_do cmd = Some func ->
  (cmd <> "cd" -> keeps (@prompt Handle World) (func arg))
  /\ (cmd <> "open" -> cmd <> "close" -> keeps (@fe Handle World) (func arg))
  /\ keeps (@lastcmd Handle World) (func arg).
Proof.
  pose proof (@shell_only_prompt Handle World) as Hp.
  pose proof (@shell_only_fe Handle World) as Hf.
  pose proof (@shell_only_lastcmd Handle World) as Hl.
  unfold getattr_do.
  repeat match goal with
         | |- (if String.eqb ?a ?b then _ else _) = _ -> _ =>
             let E := fresh "E" in
             destruct (String.eqb a b) eqn:E;
             [apply String.eqb_eq in E |]
         end;
    intros Q; inversion Q; subst; clear Q;
    (split; [intros N1 | split; [intros N1 N2 |]]);
    try congruence;
    unfold do_exit, do_EOF, do_open, do_close, do_ls, do_pwd, do_cd, do_md,
      do_lls, do_lcd, do_lpwd, do_put, do_get, do_rm, do_cat, do_exec,
      do_repl, do_help, __connect, __disconnect, __set_prompt_path;
    first [ keep Hp; intros s; reflexivity
          | keep Hf; intros s; reflexivity
          | keep Hl; intros s; reflexivity ].
Qed.

End Frame.

(** ** Commands that stay on the host *)

Section HostOnly.
Context {Handle World : Type}.
Context {FE : MpFileExplorer Handle World}.
Context {MT : Miniterm Handle World}.
Context {OS : HostOS World}.

Local Abbreviation St := (State Handle World).
Local Abbreviation M := (@M Handle World).

Lemma host_blind_device_log : host_blind (@device_log Handle World).
Proof.
  intros f p l o c w o' w' x Hx. unfold device_log. cbn [calls].
  split; [reflexivity|].
  rewrite filter_app. cbn [filter]. rewrite Hx, app_nil_r. reflexivity.
Qed.

Lemma shell_only_host_blind {X} (obs : St -> X) :
  shell_only obs -> host_blind obs.
Proof. intros H f p l o c w o' w' x _. split; apply H. Qed.

Lemma keeps_host_call {X A} (obs : St -> X) (c : Call Handle) (op : ext World A) :
  host_blind obs -> is_handle_call c = false -> keeps obs (call c op).
Proof.
  intros H Hc [f p l o cs w]. unfold call. cbn [world].
  destruct (op w) as [w1 r]. cbn [fst].
  symmetry. apply (H f p l o cs w o w1 (c, raised r)). exact Hc.
Qed.

Lemma keeps_host_write {X} (obs : St -> X) (x : string) :
  host_blind obs -> keeps obs (write x).
Proof.
  intros H [f p l o cs w]. cbn. symmetry.
  apply (H f p l o cs w (o ++ [x])%list w (COsListdir, None)). reflexivity.
Qed.

(** X2: the local commands [lls], [lcd] and [lpwd] never call the session
    handle and never change the session field or the prompt, whether or
    not a session exists and whatever the host answers. *)
Theorem local_commands_stay_on_the_host (args : string) :
  Forall (fun f : string -> M bool =>
            keeps (@device_log Handle World) (f args)
            /\ keeps (@fe Handle World) (f args)
            /\ keeps (@prompt Handle World) (f args))
         [do_lls; do_lcd; do_lpwd].
Proof.
  assert (K : forall X (obs : St -> X), host_blind obs ->
              keeps obs (do_lls args) /\ keeps obs (do_lcd args)
              /\ keeps obs (do_lpwd args)).
  { intros X obs H.
    assert (W : forall x, keeps obs (write x))
      by (intros x; apply keeps_host_write; exact H).
    assert (P : forall x, keeps obs (print x)) by (intros x; apply W).
    assert (E : forall x, keeps obs (__error x)) by (intros x; apply P).
    unfold do_lls, do_lcd, do_lpwd.
    repeat split;
      repeat first
        [ apply keeps_ret | apply P | apply E
        | apply keeps_host_call; [exact H | reflexivity]
        | apply keeps_for_each; intros
        | apply keeps_bind; [|intros]
        | apply keeps_try_except; [|repeat constructor; cbn [snd]; intros]
        | match goal with
          | |- keeps _ (if ?b then _ else _) => destruct b
          end ]. }
  destruct (K _ _ host_blind_device_log) as (D1 & D2 & D3).
  destruct (K _ _ (shell_only_host_blind _ (@shell_only_fe Handle World)))
    as (F1 & F2 & F3).
  destruct (K _ _ (shell_only_host_blind _ (@shell_only_prompt Handle World)))
    as (P1 & P2 & P3).
  repeat constructor; assumption.
Qed.

(** [__is_open] and the argument test answer before anything else. *)
Ltac offline H :=
  unfold bind at 1; rewrite (is_open_none _ H); reflexivity.

Ltac offline_arg arg H :=
  destruct arg;
  [ eexists; reflexivity
  | exists not_connected; cbn [PyStr.nonempty negb]; offline H ].

(** X3: a shell without a session stays without one and never calls the
    session handle, whatever command other than [open] is dispatched with
    whatever arguments: the guarded commands print an advisory, [pwd]
    raises, and the rest do not need the device. *)
Theorem no_session_no_device_call
    (cmd : string) (func : string -> M bool) (arg : string) (s : St) :
  getattr_do cmd = Some func ->
  cmd <> "open" ->
  fe s = None ->
  fe (fst (func arg s)) = None
  /\ device_log (fst (func arg s)) = device_log s.
Proof.
  intros G N H.
  assert (S : forall msg, fe (said msg s) = None
                          /\ device_log (said msg s) = device_log s)
    by (intros msg; split; [exact H | reflexivity]).
  assert (L : Forall (fun f : string -> M bool =>
                        keeps (@device_log Handle World) (f arg)
                        /\ keeps (@fe Handle World) (f arg)
                        /\ keeps (@prompt Handle World) (f arg))
                     [do_lls; do_lcd; do_lpwd])
    by apply local_commands_stay_on_the_host.
  unfold getattr_do in G.
  repeat match type of G with
         | (if String.eqb ?a ?b then _ else _) = _ =>
             let E := fresh "E" in
             destruct (String.eqb a b) eqn:E;
             [apply String.eqb_eq in E |]
         end;
    inversion G; subst; clear G; try congruence.
  - split; [exact H | reflexivity].
  - split; [exact H | reflexivity].
  - unfold do_close, bind. rewrite (disconnect_none s H). split; [exact H | reflexivity].
  - assert (Q : do_ls arg s = (said not_connected s, Ret false))
      by (unfold do_ls; offline H).
    rewrite Q. apply S.
  - destruct (pwd_disconnected_raises s arg H) as (e & Q & _). rewrite Q.
    split; [exact H | reflexivity].
  - assert (Q : exists msg, do_cd arg s = (said msg s, Ret false))
      by (unfold do_cd; offline_arg arg H).
    destruct Q as [msg Q]. rewrite Q. apply S.
  - assert (Q : exists msg, do_md arg s = (said msg s, Ret false))
      by (unfold do_md; offline_arg arg H).
    destruct Q as [msg Q]. rewrite Q. apply S.
  - inversion L as [|? ? (D & F & _) _]; subst. rewrite (D s), (F s).
    split; [exact H | reflexivity].
  - inversion L as [|? ? _ L1]; subst.
    inversion L1 as [|? ? (D & F & _) _]; subst. rewrite (D s), (F s).
    split; [exact H | reflexivity].
  - inversion L as [|? ? _ L1]; subst. inversion L1 as [|? ? _ L2]; subst.
    inversion L2 as [|? ? (D & F & _) _]; subst. rewrite (D s), (F s).
    split; [exact H | reflexivity].
  - assert (Q : exists msg, do_put arg s = (said msg s, Ret false))
      by (unfold do_put; offline_arg arg H).
    destruct Q as [msg Q]. rewrite Q. apply S.
  - assert (Q : exists msg, do_get arg s = (said msg s, Ret false))
      by (unfold do_get; offline_arg arg H).
    destruct Q as [msg Q]. rewrite Q. apply S.
  - assert (Q : exists msg, do_rm arg s = (said msg s, Ret false))
      by (unfold do_rm; offline_arg arg H).
    destruct Q as [msg Q]. rewrite Q. apply S.
  - assert (Q : exists msg, do_cat arg s = (said msg s, Ret false))
      by (unfold do_cat; offline_arg arg H).
    destruct Q as [msg Q]. rewrite Q. apply S.
  - assert (Q : exists msg, do_exec arg s = (said msg s, Ret false))
      by (unfold do_exec; offline_arg arg H).
    destruct Q as [msg Q]. rewrite Q. apply S.
  - assert (Q : do_repl arg s = (said not_connected s, Ret false))
      by (unfold do_repl; offline H).
    rewrite Q. apply S.
  - unfold do_help, bind.
    rewrite (for_each_write (fun x => x) write (help_text arg)
               (fun _ _ => eq_refl)).
    split; [exact H | reflexivity].
Qed.

End HostOnly.

(** ** What the remaining commands print *)

Section Reports.
Context {Handle World : Type}.
Context {FE : MpFileExplorer Handle World}.
Context {MT : Miniterm Handle World}.
Context {OS : HostOS World}.

Local Abbreviation St := (State Handle World).
Local Abbreviation M := (@M Handle World).

(** X4: [pwd] on a connected shell makes one call, [fe.pwd()], and prints
    the path it reports on a line of its own; on a shell without a session
    it prints nothing, leaves the state alone and ends in an
    [AttributeError], since it reads [self.fe] without testing it. *)
Theorem pwd_prints_the_remote_path (s : St) (args : string) :
  match fe s with
  | Some h =>
      forall w p, fe_pwd h (world s) = (w, Ret p) ->
        do_pwd args s
        = (wrote [(p ++ PyStr.nl)%string] (logged (CPwd h) None w s), Ret false)
  | None =>
      exists e, do_pwd args s = (s, Raise e) /\ exc_class e = AttributeError
  end.
Proof.
  destruct s as [f p0 l o c w0]. cbn [fe]. destruct f as [h|].
  - intros w p P. cbn [world] in P. unfold do_pwd. run. rewrite P. reflexivity.
  - eexists. split; reflexivity.
Qed.

(** X5: [ls] on a connected shell prints a header naming the directory
    that [fe.pwd()] reports, then one line per entry that [fe.ls] returned,
    in the order returned (cyan for type [F], magenta for any other
    type), then an empty line; when [fe.ls] raises an [IOError] it prints
    the advisory alone, no header. *)
Theorem ls_prints_entries_in_device_order
    (s : St) (h : Handle) (args : string) (w1 : World)
    (r : result (list (string * string))) :
  fe s = Some h ->
  fe_ls h (world s) = (w1, r) ->
  match r with
  | Ret files =>
      forall w2 p, fe_pwd h w1 = (w2, Ret p) ->
        do_ls args s
        = (wrote (ls_header p :: map ls_entry files ++ [PyStr.nl])%list
             (logged (CPwd h) None w2 (logged (CLs h) None w1 s)),
           Ret false)
  | Raise e =>
      isinstance e IOError = true ->
      do_ls args s
      = (said (exc_str e) (logged (CLs h) (Some e) w1 s), Ret false)
  end.
Proof.
  intros Hfe E. destruct s as [f p0 l o c w0]. cbn in Hfe, E. subst f.
  destruct r as [files|e].
  - intros w2 p P. unfold do_ls. run. rewrite E. run. rewrite P. run.
    erewrite (for_each_write ls_entry).
    + run. unfold wrote. cbn [fe prompt lastcmd stdout calls world].
      rewrite <- !app_assoc. reflexivity.
    + intros [elem ty] s. unfold ls_entry. cbn [fst snd].
      destruct (String.eqb ty "F"); reflexivity.
  - intros I. unfold do_ls. run. rewrite E. run. rewrite I. reflexivity.
Qed.

(** X6: [exec] on a connected shell sends the statement with a newline
    appended, then follows the output: every chunk is written through
    [data_consumer] in arrival order, and when the error tail that
    [follow] returns is not empty it is printed as an advisory although
    both calls returned. *)
Theorem exec_streams_output_then_reports_the_error_tail
    (s : St) (h : Handle) (args : string) (w1 w2 : World)
    (chunks : list string) (out err : string) :
  fe s = Some h ->
  args <> EmptyString ->
  fe_exec_raw_no_follow h (args ++ PyStr.nl) (world s) = (w1, Ret tt) ->
  fe_follow h w1 = (w2, (chunks, Ret (out, err))) ->
  do_exec args s
  = (mkState (fe s) (prompt s) (lastcmd s)
       (stdout s ++ map data_consumer chunks
          ++ (if PyStr.nonempty err then [advisory err] else []))%list
       (calls s ++ [(CExecRawNoFollow h (args ++ PyStr.nl)%string, None);
                    (CFollow h, None)])%list
       w2,
     Ret false).
Proof.
  intros Hfe Ha E F. apply nonempty_true in Ha.
  destruct s as [f p0 l o c w0]. cbn in Hfe, E. subst f.
  unfold do_exec. rewrite Ha. run. rewrite E. run. rewrite F. run.
  destruct (PyStr.nonempty err); run; rewrite <- !app_assoc;
    rewrite ?app_nil_r; reflexivity.
Qed.

(** X7: [open] with a port on a shell without a session makes one call,
    the constructor.  When it returns a handle the shell is connected
    through it and nothing is printed; when it raises a [PyboardError] the
    last argument of the error is printed and the shell stays without a
    session; any other exception, an [IOError] of the serial port for one,
    is not caught and leaves [do_open]. *)
Theorem open_connects_or_reports
    (s : St) (port : string) (w : World) (r : result Handle) :
  fe s = None ->
  port <> EmptyString ->
  fe_new port (world s) = (w, r) ->
  match r with
  | Ret h =>
      do_open port s = (with_fe (Some h) (logged (CNew port) None w s), Ret false)
  | Raise e =>
      (isinstance e PyboardError = true ->
       forall a, PyStr.last_item (exc_args e) = Some a ->
         do_open port s = (said a (logged (CNew port) (Some e) w s), Ret false))
      /\ (isinstance e PyboardError = false ->
          do_open port s = (logged (CNew port) (Some e) w s, Raise e))
  end.
Proof.
  intros Hfe Hp E. apply nonempty_true in Hp.
  destruct s as [f p0 l o c w0]. cbn in Hfe, E. subst f.
  destruct r as [h|e].
  - unfold do_open. rewrite Hp. run. rewrite E. reflexivity.
  - split.
    + intros I a La. unfold do_open. rewrite Hp. run. rewrite E. run.
      rewrite I, La. reflexivity.
    + intros I. unfold do_open. rewrite Hp. run. rewrite E. run.
      rewrite I. reflexivity.
Qed.

(** X8: [md], [rm] and [cat] on a connected shell pass their whole
    argument string, spaces included, as one path to [fe.md], [fe.rm] and
    [fe.gets].  [md] and [rm] print nothing when the call returns, [cat]
    prints the text it got; an [IOError] of the call is printed as an
    advisory and the command returns. *)
Theorem md_rm_cat_pass_the_whole_argument
    (s : St) (h : Handle) (args : string) :
  fe s = Some h ->
  args <> EmptyString ->
  (forall w r, fe_md h args (world s) = (w, r) ->
     match r with
     | Ret _ => do_md args s = (logged (CMd h args) None w s, Ret false)
     | Raise e =>
         isinstance e IOError = true ->
         do_md args s
         = (said (exc_str e) (logged (CMd h args) (Some e) w s), Ret false)
     end)
  /\ (forall w r, fe_rm h args (world s) = (w, r) ->
        match r with
        | Ret _ => do_rm args s = (logged (CRm h args) None w s, Ret false)
        | Raise e =>
            isinstance e IOError = true ->
            do_rm args s
            = (said (exc_str e) (logged (CRm h args) (Some e) w s), Ret false)
        end)
  /\ (forall w r, fe_gets h args (world s) = (w, r) ->
        match r with
        | Ret text =>
            do_cat args s
            = (wrote [(text ++ PyStr.nl)%string] (logged (CGets h args) None w s),
               Ret false)
        | Raise e =>
            isinstance e IOError = true ->
            do_cat args s
            = (said (exc_str e) (logged (CGets h args) (Some e) w s), Ret false)
        end).
Proof.
  intros Hfe Ha. apply nonempty_true in Ha.
  destruct s as [f p0 l o c w0]. cbn in Hfe. subst f. cbn [world].
  repeat split; intros w r E; destruct r as [v|e]; try intros I;
    unfold do_md, do_rm, do_cat; rewrite Ha; run; rewrite E; run;
    rewrite ?I; try destruct v; reflexivity.
Qed.

(** X9: [lls] and [lpwd] have no [try]: when [os.listdir] or [os.getcwd]
    raises, nothing is printed and the exception leaves the command.  When
    the call returns, [lls] prints a header, the names in the order
    returned, each behind one space, and an empty line; [lpwd] prints the
    directory. *)
Theorem lls_and_lpwd_print_or_propagate (s : St) (args : string) :
  (forall w r, os_listdir (world s) = (w, r) ->
     match r with
     | Ret files =>
         do_lls args s
         = (wrote (lls_header :: map lls_entry files ++ [PyStr.nl])%list
              (logged COsListdir None w s), Ret false)
     | Raise e => do_lls args s = (logged COsListdir (Some e) w s, Raise e)
     end)
  /\ (forall w r, os_getcwd (world s) = (w, r) ->
        match r with
        | Ret p =>
            do_lpwd args s
            = (wrote [(p ++ PyStr.nl)%string] (logged COsGetcwd None w s),
               Ret false)
        | Raise e => do_lpwd args s = (logged COsGetcwd (Some e) w s, Raise e)
        end).
Proof.
  destruct s as [f p0 l o c w0]. cbn [world].
  split; intros w r E; destruct r as [v|e].
  - unfold do_lls. run. rewrite E. run.
    erewrite (for_each_write lls_entry).
    + run. unfold wrote. cbn [fe prompt lastcmd stdout calls world].
      rewrite <- !app_assoc. reflexivity.
    + intros x s. reflexivity.
  - unfold do_lls. run. rewrite E. reflexivity.
  - unfold do_lpwd. run. rewrite E. reflexivity.
  - unfold do_lpwd. run. rewrite E. reflexivity.
Qed.

End Reports.

(** ** Stripping and splitting in the commands *)

Section Text.

Lemma lstrip_not_in (cs : list ascii) (s : string) (c : ascii) :
  first_char (PyStr.lstrip cs s) = Some c -> PyStr.mem c cs = false.
Proof.
  induction s as [|d s IH]; cbn; [discriminate|].
  destruct (PyStr.mem d cs) eqn:E; [exact IH|].
  cbn. intros Q. inversion Q; subst. exact E.
Qed.

Lemma rstrip_first (cs : list ascii) (s : string) (c : ascii) :
  first_char s = Some c -> PyStr.mem c cs = false ->
  first_char (PyStr.rstrip cs s) = Some c.
Proof.
  destruct s as [|d s]; cbn; [discriminate|].
  intros Q N. inversion Q; subst.
  destruct (PyStr.rstrip cs s); [rewrite N|]; reflexivity.
Qed.

Lemma rstrip_first_inv (cs : list ascii) (s : string) (c : ascii) :
  first_char (PyStr.rstrip cs s) = Some c -> first_char s = Some c.
Proof.
  destruct s as [|d s]; cbn; [discriminate|].
  destruct (PyStr.rstrip cs s); [destruct (PyStr.mem d cs)|]; cbn; congruence.
Qed.

Lemma rstrip_not_in (cs : list ascii) (s : string) (c : ascii) :
  last_char (PyStr.rstrip cs s) = Some c -> PyStr.mem c cs = false.
Proof.
  induction s as [|d s IH]; cbn [PyStr.rstrip]; [discriminate|].
  destruct (PyStr.rstrip cs s) as [|x r] eqn:R.
  - destruct (PyStr.mem d cs) eqn:E; cbn; [discriminate|].
    intros Q. inversion Q; subst. exact E.
  - intros Q. apply IH. exact Q.
Qed.

Lemma free_of_mem (c d : ascii) :
  PyStr.mem d [c] = Ascii.eqb d c.
Proof. unfold PyStr.mem. cbn. apply orb_false_r. Qed.

Lemma lstrip_free (c : ascii) (s : string) :
  PyStr.free_of c s = true -> PyStr.lstrip [c] s = s.
Proof.
  destruct s as [|d s]; cbn [PyStr.lstrip PyStr.free_of]; [reflexivity|].
  intros F. apply andb_prop in F. destruct F as [N _].
  rewrite free_of_mem. apply negb_true_iff in N. rewrite N. reflexivity.
Qed.

Lemma rstrip_free (c : ascii) (s : string) :
  PyStr.free_of c s = true -> PyStr.rstrip [c] s = s.
Proof.
  induction s as [|d s IH]; cbn [PyStr.rstrip PyStr.free_of]; [reflexivity|].
  intros F. apply andb_prop in F. destruct F as [N F].
  rewrite (IH F), free_of_mem. apply negb_true_iff in N. rewrite N.
  destruct s; reflexivity.
Qed.

(** X10: what [data_consumer] of [do_exec] writes for a chunk neither
    starts nor ends with the end-of-transmission character [\x04], and a
    chunk that holds no such character is written unchanged. *)
Theorem data_consumer_strips_end_of_transmission (data : string) :
  first_char (data_consumer data) <> Some (ascii_of_nat 4)
  /\ last_char (data_consumer data) <> Some (ascii_of_nat 4)
  /\ (PyStr.free_of (ascii_of_nat 4) data = true -> data_consumer data = data).
Proof.
  unfold data_consumer, PyStr.strip_chars.
  split; [| split].
  - intros Q. apply rstrip_first_inv in Q. apply lstrip_not_in in Q.
    vm_compute in Q. discriminate Q.
  - intros Q. apply rstrip_not_in in Q. vm_compute in Q. discriminate Q.
  - intros F. rewrite (lstrip_free _ _ F). apply rstrip_free. exact F.
Qed.

Lemma split_go_nonempty (sep : string) (s : string) :
  forall skip acc, PyStr.split_go sep skip acc s <> [].
Proof.
  induction s as [|c s IH]; intros skip acc; cbn [PyStr.split_go];
    [intros Q; discriminate Q|].
  destruct skip; [|apply IH].
  destruct (String.prefix sep (String c s)); [intros Q; discriminate Q | apply IH].
Qed.

Lemma last_cons_nonempty {A} (x : A) (l : list A) (d : A) :
  l <> [] -> List.last (x :: l) d = List.last l d.
Proof. destruct l; [congruence | reflexivity]. Qed.

Lemma prefix_bracket (c : ascii) (s : string) :
  String.prefix "] " (String c s) = true ->
  c = "]"%char /\ exists s', s = String " " s'.
Proof.
  cbn [String.prefix]. destruct (ascii_dec "]" c) as [<-|]; [|discriminate].
  destruct s as [|d s']; cbn [String.prefix]; [discriminate|].
  destruct (ascii_dec " " d) as [<-|]; [|discriminate].
  intros _. split; [reflexivity | exists s'; reflexivity].
Qed.

Lemma split_go_free_bracket (b : string) :
  forall acc, PyStr.free_of "]" b = true ->
  PyStr.split_go "] " 0 acc b
  = [string_of_list_ascii (rev acc ++ list_ascii_of_string b)].
Proof.
  induction b as [|d b IH]; intros acc F.
  - cbn. rewrite app_nil_r. reflexivity.
  - cbn [PyStr.free_of] in F. apply andb_prop in F. destruct F as [N F].
    cbn [PyStr.split_go].
    destruct (String.prefix "] " (String d b)) eqn:P.
    + apply prefix_bracket in P. destruct P as [-> _]. discriminate N.
    + rewrite (IH (d :: acc) F). cbn [rev list_ascii_of_string].
      rewrite <- app_assoc. reflexivity.
Qed.

(** Behind the last ["] "] of a text: the last piece of the split. *)
Lemma split_last_piece (b : string) :
  PyStr.free_of "]" b = true ->
  forall a skip acc,
    skip = 0 \/ (skip = 1 /\ exists a', a = String " " a') ->
    List.last (PyStr.split_go "] " skip acc (a ++ "] " ++ b)) EmptyString = b.
Proof.
  intros F. remember ("] " ++ b) as t eqn:T.
  induction a as [|c a IH]; intros skip acc Hs.
  - destruct Hs as [-> | (_ & a' & Q)]; [|discriminate Q].
    subst t. cbn [append PyStr.split_go String.length Nat.sub].
    replace (String.prefix "] " (String "]" (String " " b))) with true
      by (cbn [String.prefix]; destruct (ascii_dec "]" "]"); [|congruence];
          destruct (ascii_dec " " " "); [|congruence];
          rewrite prefix_empty; reflexivity).
    rewrite last_cons_nonempty by apply split_go_nonempty.
    rewrite (split_go_free_bracket b [] F). cbn [rev app List.last].
    apply string_of_list_ascii_of_string.
  - cbn [append].
    destruct Hs as [-> | (-> & a' & Q)].
    + cbn [PyStr.split_go].
      destruct (String.prefix "] " (String c (a ++ t))) eqn:P.
      * apply prefix_bracket in P. destruct P as (_ & s' & Q).
        rewrite last_cons_nonempty by apply split_go_nonempty.
        apply IH. right. split; [reflexivity|].
        destruct a as [|d a'']; [subst t; discriminate Q|].
        cbn [append] in Q. inversion Q; subst. exists a''. reflexivity.
      * apply IH. left. reflexivity.
    + cbn [PyStr.split_go]. apply IH. left. reflexivity.
Qed.

End Text.

Section LocalDirectory.
Context {Handle World : Type}.
Context {FE : MpFileExplorer Handle World}.
Context {MT : Miniterm Handle World}.
Context {OS : HostOS World}.

Local Abbreviation St := (State Handle World).

(** X11: [lcd] with a directory calls [os.chdir] and prints nothing when
    it returns.  When it raises an [OSError] whose text ends in a message
    without a closing bracket behind a ["] "], as in [[Errno 2] No such
    file or directory], the message behind the bracket is printed and the
    command returns; an exception of another class leaves the command. *)
Theorem lcd_reports_the_message_behind_the_bracket
    (s : St) (args : string) (w : World) (r : result unit) :
  args <> EmptyString ->
  os_chdir args (world s) = (w, r) ->
  match r with
  | Ret _ =>
      do_lcd (Handle:=Handle) args s = (logged (COsChdir args) None w s, Ret false)
  | Raise e =>
      (isinstance e OSError = true ->
       forall pre msg,
         exc_str e = pre ++ "] " ++ msg -> PyStr.free_of "]" msg = true ->
         do_lcd (Handle:=Handle) args s
         = (said msg (logged (COsChdir args) (Some e) w s), Ret false))
      /\ (isinstance e OSError = false ->
          do_lcd (Handle:=Handle) args s
          = (logged (COsChdir args) (Some e) w s, Raise e))
  end.
Proof.
  intros Ha E. apply nonempty_true in Ha.
  destruct s as [f p0 l o c w0]. cbn [world] in E.
  destruct r as [[]|e].
  - unfold do_lcd. rewrite Ha. run. rewrite E. reflexivity.
  - split.
    + intros I pre msg Q F. unfold do_lcd. rewrite Ha. run. rewrite E. run.
      rewrite I. unfold PyStr.split. rewrite Q.
      rewrite (split_last_piece msg F pre 0 [] (or_introl eq_refl)).
      reflexivity.
    + intros I. unfold do_lcd. rewrite Ha. run. rewrite E. run.
      rewrite I. reflexivity.
Qed.

End LocalDirectory.

(** ** [exit] in a batch, and the script text *)

Section Scripts.
Context {Handle World : Type}.
Context {FE : MpFileExplorer Handle World}.
Context {MT : Miniterm Handle World}.
Context {OS : HostOS World}.

Local Abbreviation St := (State Handle World).

Lemma onecmd_exit (line line' arg : string) (s : St) :
  parseline line = (Some "exit", Some arg, line') ->
  PyStr.nonempty line' = true ->
  exists l, onecmd line s = (with_lastcmd l s, Ret true).
Proof.
  intros P N. unfold onecmd. rewrite P, N. unfold onecmd_parsed.
  destruct (String.eqb line' "EOF"); eexists; reflexivity.
Qed.

(** X12: the batch runner does not look at the stop flag.  A line of a
    [-c] batch whose command is [exit] closes nothing, prints nothing and
    calls nothing (only [lastcmd] changes), and the lines behind it are
    dispatched all the same. *)
Theorem exit_does_not_end_a_batch
    (command : list string) (line arg line' : string) (rest : list string)
    (s : St) :
  batch_lines command = line :: rest ->
  parseline line = (Some "exit", Some arg, line') ->
  PyStr.nonempty line' = true ->
  exists l,
    onecmd line s = (with_lastcmd l s, Ret true)
    /\ main_command command s = dispatch_all rest (with_lastcmd l s).
Proof.
  intros B P N. destruct (onecmd_exit line line' arg s P N) as [l Q].
  exists l. split; [exact Q|].
  unfold main_command. rewrite batch_loop. fold (batch_lines command).
  rewrite B. unfold dispatch_all. cbn [for_each]. unfold bind at 1 2.
  rewrite Q. reflexivity.
Qed.

Lemma script_loop_appends (lines : list string) :
  forall script,
    Rest.script_loop lines script
    = script ++ String.concat EmptyString
                  (map (fun l => l ++ PyStr.nl)
                       (filter kept_line (map PyStr.strip lines))).
Proof.
  induction lines as [|x xs IH]; intros script.
  - cbn. clear. induction script; cbn; congruence.
  - cbn [Rest.script_loop map filter]. cbv zeta.
    fold (kept_line (PyStr.strip x)).
    destruct (kept_line (PyStr.strip x)); [|apply IH].
    rewrite IH. cbn [map String.concat].
    set (tl := map _ (filter kept_line (map PyStr.strip xs))).
    assert (A : forall a b c : string, (a ++ b) ++ c = a ++ b ++ c)
      by (intros a b c; induction a; cbn; congruence).
    destruct tl as [|y ys].
    + cbn [String.concat]. rewrite A. f_equal.
      clear. induction (PyStr.strip x ++ PyStr.nl); cbn; congruence.
    + rewrite A. reflexivity.
Qed.

Lemma split_lines (ls : list string) :
  Forall (fun l => PyStr.free_of (ascii_of_nat 10) l = true) ls ->
  PyStr.split PyStr.nl
    (String.concat EmptyString (map (fun l => l ++ PyStr.nl) ls))
  = (ls ++ [EmptyString])%list.
Proof.
  intros F. induction F as [|l ls Hl _ IH]; [reflexivity|].
  assert (Q : String.concat EmptyString (map (fun l => l ++ PyStr.nl) (l :: ls))
              = l ++ String (ascii_of_nat 10)
                       (String.concat EmptyString
                          (map (fun l => l ++ PyStr.nl) ls))).
  { cbn [map String.concat].
    assert (A : forall a b c : string, (a ++ b) ++ c = a ++ b ++ c)
      by (intros a b c; induction a; cbn; congruence).
    destruct (map (fun l0 => l0 ++ PyStr.nl) ls) as [|y ys] eqn:E.
    - cbn [String.concat]. reflexivity.
    - rewrite A. reflexivity. }
  rewrite Q. unfold PyStr.split, PyStr.nl, PyStr.chr.
  rewrite (split_go_sep (ascii_of_nat 10) l _ [] Hl).
  cbn [rev app]. rewrite string_of_list_ascii_of_string.
  cbn [app]. f_equal. exact IH.
Qed.

Lemma is_ascii_app (a b : string) :
  is_ascii (a ++ b) = is_ascii a && is_ascii b.
Proof.
  induction a as [|c a IH]; cbn [append is_ascii]; [reflexivity|].
  rewrite IH. apply andb_assoc.
Qed.

Lemma is_ascii_lines (ls : list string) :
  is_ascii (String.concat EmptyString (map (fun l => l ++ PyStr.nl) ls))
  = forallb is_ascii ls.
Proof.
  induction ls as [|l ls IH]; [reflexivity|].
  cbn [map forallb]. rewrite <- IH.
  assert (N : forall x, is_ascii (x ++ PyStr.nl) = is_ascii x)
    by (intros x; rewrite is_ascii_app; apply andb_true_r).
  cbn [String.concat].
  destruct (map (fun l0 => l0 ++ PyStr.nl) ls) as [|y ys].
  - cbn [String.concat is_ascii] in *. rewrite andb_true_r. apply N.
  - rewrite is_ascii_app. cbn [append]. rewrite N. reflexivity.
Qed.

Lemma first_non_ascii_spec (s : string) :
  forall pos,
    if is_ascii s
    then Rest.first_non_ascii s pos = None
    else exists pb, Rest.first_non_ascii s pos = Some pb.
Proof.
  induction s as [|c s IH]; intros pos; cbn [is_ascii Rest.first_non_ascii];
    [reflexivity|].
  destruct (Nat.ltb (nat_of_ascii c) 128); cbn [andb];
    [apply IH | eexists; reflexivity].
Qed.

(** X13: provided every kept line is ASCII, the text that the [-s] branch
    of [main] puts in place of standard input holds exactly the stripped
    lines of the script file that are neither empty nor comments, in file
    order, each closed by a newline: splitting it at the newlines gives
    those lines back, followed by the empty rest; the branch then empties
    the prompt and the intro and touches nothing else.  When a kept line
    holds a byte above 127, [unicode] raises and the branch ends in that
    exception with the state, the prompt included, as it was. *)
Theorem script_text_is_the_kept_lines (lines : list string) (s : St) :
  Forall (fun l => PyStr.free_of (ascii_of_nat 10) (PyStr.strip l) = true) lines ->
  if forallb is_ascii (filter kept_line (map PyStr.strip lines))
  then
    exists script,
      Rest.main_script lines s
      = (with_prompt EmptyString s, Ret (script, EmptyString))
      /\ PyStr.split PyStr.nl script
         = (filter kept_line (map PyStr.strip lines) ++ [EmptyString])%list
  else
    exists e, Rest.main_script lines s = (s, Raise e).
Proof.
  intros F. unfold Rest.main_script, Rest.unicode. cbv zeta.
  pose proof (script_loop_appends lines EmptyString) as L. cbn [append] in L.
  pose proof (first_non_ascii_spec (Rest.script_loop lines EmptyString) 0) as A.
  assert (E : is_ascii (Rest.script_loop lines EmptyString)
              = forallb is_ascii (filter kept_line (map PyStr.strip lines)))
    by (rewrite L; apply is_ascii_lines).
  rewrite E in A. clear E.
  destruct (forallb is_ascii (filter kept_line (map PyStr.strip lines))).
  - rewrite A. exists (Rest.script_loop lines EmptyString).
    split; [reflexivity|]. rewrite L. apply split_lines.
    clear A L. induction F as [|l ls Hl _ IH]; cbn [map filter]; [constructor|].
    destruct (kept_line (PyStr.strip l)); [constructor; assumption | exact IH].
  - destruct A as [[pos b] A]. rewrite A. eexists. reflexivity.
Qed.

End Scripts.

(** ** Tab completion *)

Section Completers.
Context {Handle World : Type}.
Context {FE : MpFileExplorer Handle World}.
Context {OS : HostOS World}.
Context {LS : MpFileExplorerNames Handle World}.
Context {HP : HostPaths World}.
Variables pe oe : bool.

Local Abbreviation St := (State Handle World).
Local Abbreviation M := (@M Handle World).

Lemma starting_with_In (text c : string) (names : list string) :
  In c (Rest.starting_with text names)
  <-> In c names /\ PyStr.startswith text c = true.
Proof. unfold Rest.starting_with. apply filter_In. Qed.

(** The remote completers differ only in the flags they pass to [fe.ls]. *)
Lemma remote_completer (add_files add_dirs : bool) (text : string) (s : St) :
  let completer :=
    files <- Rest.try_except_Exception pe oe
               (h <- fe_attr "ls";;
                call (CLs h) (fe_ls_names h add_files add_dirs))
               (ret []);;
    ret (Rest.starting_with text files) in
  match fe s with
  | None => completer s = (s, Ret [])
  | Some h =>
      forall w r, fe_ls_names h add_files add_dirs (world s) = (w, r) ->
        match r with
        | Ret names =>
            completer s
            = (logged (CLs h) None w s, Ret (Rest.starting_with text names))
        | Raise e =>
            (Rest.is_Exception pe oe (exc_class e) = true ->
             completer s = (logged (CLs h) (Some e) w s, Ret []))
            /\ (Rest.is_Exception pe oe (exc_class e) = false ->
                completer s = (logged (CLs h) (Some e) w s, Raise e))
        end
  end.
Proof.
  intros completer. subst completer.
  destruct s as [f p0 l o c w0]. cbn [fe world]. destruct f as [h|].
  - intros w r E. unfold Rest.try_except_Exception. run. rewrite E.
    destruct r as [names|e]; run; [reflexivity|].
    split; intros I; rewrite I; reflexivity.
  - reflexivity.
Qed.

(** X14: the remote completers [complete_cd], [complete_get] (also bound
    as [complete_cat]) and [complete_rm] ask [fe.ls] for directories only,
    files only, and both.  On a shell without a session, and when [fe.ls]
    raises any subclass of [Exception], they answer with no candidate
    instead of failing; otherwise they answer with the names returned
    that start with the text typed, in the order returned. *)
Theorem remote_completion_never_fails (text : string) (s : St) :
  match fe s with
  | None =>
      Rest.complete_cd pe oe text s = (s, Ret [])
      /\ Rest.complete_get pe oe text s = (s, Ret [])
      /\ Rest.complete_cat pe oe text s = (s, Ret [])
      /\ Rest.complete_rm pe oe text s = (s, Ret [])
  | Some h =>
      forall w r (add_files add_dirs : bool)
             (completer : string -> M (list string)),
        In (add_files, add_dirs, completer)
           [(false, true, Rest.complete_cd pe oe);
            (true, false, Rest.complete_get pe oe);
            (true, false, Rest.complete_cat pe oe);
            (true, true, Rest.complete_rm pe oe)] ->
        fe_ls_names h add_files add_dirs (world s) = (w, r) ->
        match r with
        | Ret names =>
            completer text s
            = (logged (CLs h) None w s, Ret (Rest.starting_with text names))
            /\ (forall c, In c (Rest.starting_with text names) ->
                In c names /\ PyStr.startswith text c = true)
        | Raise e =>
            Rest.is_Exception pe oe (exc_class e) = true ->
            completer text s = (logged (CLs h) (Some e) w s, Ret [])
        end
  end.
Proof.
  destruct (fe s) as [h|] eqn:F.
  - intros w r add_files add_dirs completer HIn E.
    pose proof (remote_completer add_files add_dirs text s) as R.
    cbv zeta in R. rewrite F in R. specialize (R w r E).
    assert (Q : completer text
                = (files <- Rest.try_except_Exception pe oe
                              (h <- fe_attr "ls";;
                               call (CLs h) (fe_ls_names h add_files add_dirs))
                              (ret []);;
                   ret (Rest.starting_with text files))).
    { cbn [In] in HIn.
      repeat (destruct HIn as [HIn|HIn]; [inversion HIn; subst; reflexivity|]).
      contradiction. }
    rewrite Q. destruct r as [names|e].
    + split; [exact R|]. intros c. apply starting_with_In.
    + exact (proj1 R).
  - pose proof (remote_completer false true text s) as R1.
    pose proof (remote_completer true false text s) as R2.
    pose proof (remote_completer true true text s) as R3.
    cbv zeta in R1, R2, R3. rewrite F in R1, R2, R3.
    repeat split; assumption.
Qed.

Lemma filter_m_returns {A} (test : A -> M bool) (xs : list A) :
  (forall x s, returned (snd (test x s)) = true) ->
  forall s : St, exists kept,
    snd (Rest.filter_m test xs s) = Ret kept
    /\ (forall x, In x kept -> In x xs).
Proof.
  intros T. induction xs as [|x xs IH]; intros s.
  - exists []. split; [reflexivity | intros x []].
  - cbn [Rest.filter_m]. unfold bind at 1. specialize (T x s).
    destruct (test x s) as [s1 [b|e]]; [|discriminate T].
    unfold bind at 1. destruct (IH s1) as (kept & Q & I).
    destruct (Rest.filter_m test xs s1) as [s2 [k|e]]; cbn in Q;
      [|discriminate Q].
    inversion Q; subst. cbn [snd ret].
    exists (if b then x :: kept else kept). split; [reflexivity|].
    intros y Hy. destruct b; [destruct Hy as [->|Hy]|];
      [left; reflexivity | right; apply I; exact Hy | right; apply I; exact Hy].
Qed.

(** X15: the local completers [complete_lcd] and [complete_put] list the
    current host directory and, provided the path tests answer, return
    candidates that all are names of that listing and all start with the
    text typed.  They have no [try]: when [os.listdir] raises, so do they. *)
Theorem local_completion_offers_listed_names (text : string) (s : St) :
  (forall p, never_raises (os_path_isdir p)) ->
  (forall p, never_raises (os_path_isfile p)) ->
  forall w r, os_listdir (world s) = (w, r) ->
    match r with
    | Ret names =>
        Forall (fun completer : string -> M (list string) =>
                  exists cands,
                    snd (completer text s) = Ret cands
                    /\ forall c, In c cands ->
                         In c names /\ PyStr.startswith text c = true)
               [Rest.complete_lcd; Rest.complete_put]
    | Raise e =>
        snd (Rest.complete_lcd text s) = Raise e
        /\ snd (Rest.complete_put text s) = Raise e
    end.
Proof.
  intros Hd Hf w r E. destruct s as [f p0 l o c w0]. cbn [world] in E.
  assert (T : forall (t : string -> ext World bool),
              (forall p, never_raises (t p)) ->
              forall x (s : St),
                returned (snd (Rest.ask (t (Rest.os_path_join_dot x)) s)) = true).
  { intros t Ht x s. unfold Rest.ask.
    specialize (Ht (Rest.os_path_join_dot x) (world s)).
    destruct (t (Rest.os_path_join_dot x) (world s)) as [w1 r1]. exact Ht. }
  destruct r as [names|e].
  - repeat constructor.
    + unfold Rest.complete_lcd. unfold bind at 1, call. cbn [world]. rewrite E.
      cbn [raised]. unfold bind at 1.
      match goal with
      | |- context [Rest.filter_m ?t names ?st] =>
          destruct (filter_m_returns t names (T _ Hd) st) as (kept & Q & I);
          destruct (Rest.filter_m t names st) as [s2 [k|x]]; cbn in Q;
          [|discriminate Q]
      end.
      inversion Q; subst. eexists. split; [reflexivity|].
      intros c0 Hc. apply starting_with_In in Hc. destruct Hc as [Hc S].
      split; [apply I; exact Hc | exact S].
    + unfold Rest.complete_put. unfold bind at 1, call. cbn [world]. rewrite E.
      cbn [raised]. unfold bind at 1.
      match goal with
      | |- context [Rest.filter_m ?t names ?st] =>
          destruct (filter_m_returns t names (T _ Hf) st) as (kept & Q & I);
          destruct (Rest.filter_m t names st) as [s2 [k|x]]; cbn in Q;
          [|discriminate Q]
      end.
      inversion Q; subst. eexists. split; [reflexivity|].
      intros c0 Hc. apply starting_with_In in Hc. destruct Hc as [Hc S].
      split; [apply I; exact Hc | exact S].
  - unfold Rest.complete_lcd, Rest.complete_put, bind, call. cbn [world].
    rewrite E. split; reflexivity.
Qed.

End Completers.

(** ** The scripted desk: instances of the theorems above *)

Section AtTheDesk.
Import Desk.

Lemma only_cd_moves_the_prompt_witness :
  getattr_do (FE:=explorer) (MT:=terminal) (OS:=host) "ls" = Some do_ls
  /\ prompt (fst (do_ls EmptyString (online desk))) = prompt (online desk)
  /\ fe (fst (do_ls EmptyString (online desk))) = Some 0.
Proof.
  split; [reflexivity|].
  destruct (only_cd_moves_the_prompt (FE:=explorer) (MT:=terminal) (OS:=host)
              "ls" do_ls EmptyString ltac:(reflexivity)) as (P & F & _).
  split.
  - apply P. discriminate.
  - rewrite (F ltac:(discriminate) ltac:(discriminate) (online desk)).
    reflexivity.
Defined.

Lemma no_session_no_device_call_witness :
  fe (offline desk) = None
  /\ fe (fst (do_pwd EmptyString (offline desk))) = None
  /\ device_log (fst (do_pwd EmptyString (offline desk))) = [].
Proof.
  split; [reflexivity|].
  destruct (no_session_no_device_call (FE:=explorer) (MT:=terminal) (OS:=host)
              "pwd" do_pwd EmptyString (offline desk)
              ltac:(reflexivity) ltac:(discriminate) ltac:(reflexivity))
    as (F & D).
  split; [exact F | rewrite D; reflexivity].
Defined.

Lemma ls_prints_entries_in_device_order_witness :
  fe (online desk) = Some 0
  /\ stdout (fst (do_ls EmptyString (online desk)))
     = [ls_header "/";
        ls_entry ("boot.py", "F"); ls_entry ("lib", "D");
        ls_entry ("main.py", "F"); ls_entry ("log", "D");
        PyStr.nl].
Proof.
  split; [reflexivity|].
  pose proof (ls_prints_entries_in_device_order (FE:=explorer) (online desk) 0 EmptyString desk (Ret (remote desk))
                ltac:(reflexivity) ltac:(reflexivity)) as H.
  cbn iota in H. rewrite (H desk "/" ltac:(reflexivity)). reflexivity.
Defined.

Lemma exec_streams_output_then_reports_the_error_tail_witness :
  stdout (fst (do_exec "print(6*7)" (online desk))) = ["4"; "2"]
  /\ stdout (fst (do_exec "print(x)" (online (with_exec_tail "NameError" desk))))
     = ["4"; "2"; advisory "NameError"].
Proof.
  split.
  - rewrite (exec_streams_output_then_reports_the_error_tail (FE:=explorer) (online desk) 0 "print(6*7)" desk desk
               (exec_chunks desk) EmptyString EmptyString
               ltac:(reflexivity) ltac:(discriminate) ltac:(reflexivity)
               ltac:(reflexivity)).
    reflexivity.
  - rewrite (exec_streams_output_then_reports_the_error_tail (FE:=explorer)
               (online (with_exec_tail "NameError" desk)) 0 "print(x)"
               (with_exec_tail "NameError" desk)
               (with_exec_tail "NameError" desk)
               (exec_chunks desk) EmptyString "NameError"
               ltac:(reflexivity) ltac:(discriminate) ltac:(reflexivity)
               ltac:(reflexivity)).
    reflexivity.
Defined.

Lemma open_connects_or_reports_witness :
  fe (fst (do_open "COM3" (offline desk))) = Some 1
  /\ snd (do_open "COM9" (offline (with_new_error serial_failed desk)))
     = Raise serial_failed.
Proof.
  split.
  - pose proof (open_connects_or_reports (FE:=explorer) (offline desk) "COM3" desk (Ret 1)
                  ltac:(reflexivity) ltac:(discriminate) ltac:(reflexivity))
      as H.
    cbn iota in H. rewrite H. reflexivity.
  - pose proof (open_connects_or_reports (FE:=explorer) (offline (with_new_error serial_failed desk))
                  "COM9" (with_new_error serial_failed desk)
                  (Raise serial_failed)
                  ltac:(reflexivity) ltac:(discriminate) ltac:(reflexivity))
      as H.
    cbn iota in H. rewrite (proj2 H ltac:(reflexivity)). reflexivity.
Defined.

Lemma md_rm_cat_pass_the_whole_argument_witness :
  calls (fst (do_md "new dir" (online desk))) = [(CMd 0 "new dir", None)]
  /\ calls (fst (do_rm "old file.txt" (online desk)))
     = [(CRm 0 "old file.txt", None)]
  /\ stdout (fst (do_cat "boot.py" (online desk))) = ["import pyb" ++ PyStr.nl].
Proof.
  pose proof (md_rm_cat_pass_the_whole_argument (FE:=explorer) (online desk) 0 "new dir"
                ltac:(reflexivity) ltac:(discriminate)) as (M1 & _ & _).
  pose proof (md_rm_cat_pass_the_whole_argument (FE:=explorer) (online desk) 0 "old file.txt"
                ltac:(reflexivity) ltac:(discriminate)) as (_ & R1 & _).
  pose proof (md_rm_cat_pass_the_whole_argument (FE:=explorer) (online desk) 0 "boot.py"
                ltac:(reflexivity) ltac:(discriminate)) as (_ & _ & C1).
  specialize (M1 desk (Ret tt) ltac:(reflexivity)).
  specialize (R1 desk (Ret tt) ltac:(reflexivity)).
  specialize (C1 desk (Ret "import pyb") ltac:(reflexivity)).
  cbn iota in M1, R1, C1. rewrite M1, R1, C1. repeat split.
Defined.

Lemma lcd_reports_the_message_behind_the_bracket_witness :
  exc_str no_entry = "[Errno 2] No such file or directory: 'nowhere'"
  /\ stdout (fst (do_lcd "nowhere" (offline (with_chdir_error no_entry desk))))
     = [advisory "No such file or directory: 'nowhere'"].
Proof.
  split; [reflexivity|].
  pose proof (lcd_reports_the_message_behind_the_bracket (Handle:=nat)
                (OS:=host) (offline (with_chdir_error no_entry desk))
                "nowhere" (with_chdir_error no_entry desk) (Raise no_entry)
                ltac:(discriminate) ltac:(reflexivity)) as H.
  cbn iota in H.
  rewrite (proj1 H ltac:(reflexivity) "[Errno 2"
             "No such file or directory: 'nowhere'"
             ltac:(reflexivity) ltac:(reflexivity)).
  reflexivity.
Defined.

Lemma exit_does_not_end_a_batch_witness :
  batch_lines ["exit; pwd"] = ["exit"; "pwd"]
  /\ stdout (fst (main_command ["exit; pwd"] (online desk))) = ["/" ++ PyStr.nl].
Proof.
  split; [reflexivity|].
  destruct (exit_does_not_end_a_batch (FE:=explorer) (MT:=terminal) (OS:=host)
              ["exit; pwd"] "exit" EmptyString "exit" ["pwd"] (online desk)
              ltac:(reflexivity) ltac:(reflexivity) ltac:(reflexivity))
    as (l & Q & B).
  rewrite B. assert (L : l = "exit").
  { assert (E : onecmd "exit" (online desk)
                = (with_lastcmd "exit" (online desk), Ret true)) by reflexivity.
    rewrite E in Q. inversion Q. reflexivity. }
  rewrite L. reflexivity.
Defined.

Lemma script_text_is_the_kept_lines_witness :
  exists script,
    snd (Rest.main_script
           ["# set up" ++ PyStr.nl; "open ttyUSB0" ++ PyStr.nl; PyStr.nl;
            "  ls  " ++ PyStr.nl]
           (offline desk))
    = Ret (script, EmptyString)
    /\ PyStr.split PyStr.nl script = ["open ttyUSB0"; "ls"; EmptyString].
Proof.
  pose proof (script_text_is_the_kept_lines
                ["# set up" ++ PyStr.nl; "open ttyUSB0" ++ PyStr.nl; PyStr.nl;
                 "  ls  " ++ PyStr.nl]
                (offline desk)
                ltac:(repeat constructor)) as H.
  match type of H with
  | if ?b then _ else _ =>
      assert (B : b = true) by reflexivity; rewrite B in H
  end.
  destruct H as (script & Q & S).
  exists script. split; [rewrite Q; reflexivity | exact S].
Defined.

(** A script line with the byte [0xe9]: [unicode] raises at its position
    and the prompt is not emptied. *)
Example script_with_a_high_byte :
  option_map exc_str
    (raised (snd (Rest.main_script ["cat caf" ++ PyStr.chr 233 ++ PyStr.nl]
                    (offline desk))))
  = Some "'ascii' codec can't decode byte 0xe9 in position 7: ordinal not in range(128)"
  /\ prompt (fst (Rest.main_script ["cat caf" ++ PyStr.chr 233 ++ PyStr.nl]
                    (offline desk)))
     = prompt_for "/".
Proof. split; reflexivity. Qed.

(** A keyboard interrupt while [fe.ls] waits is no [IOError]: it leaves
    [do_ls] and, with no [try] in the loop of [main], ends the batch. *)
Example interrupt_ends_the_batch :
  option_map exc_class
    (raised (snd (main_command ["ls; lpwd"] (online (with_ls_error ctrl_c desk)))))
  = Some KeyboardInterrupt
  /\ stdout (fst (main_command ["ls; lpwd"] (online (with_ls_error ctrl_c desk))))
     = [].
Proof. split; reflexivity. Qed.

Lemma local_completion_offers_listed_names_witness :
  snd (Rest.complete_lcd "b" (offline desk)) = Ret ["build"]
  /\ snd (Rest.complete_put "m" (offline desk)) = Ret ["main.py"]
  /\ exists cands,
       snd (Rest.complete_lcd "b" (offline desk)) = Ret cands
       /\ forall c, In c cands ->
            In c (local_names desk) /\ PyStr.startswith "b" c = true.
Proof.
  split; [reflexivity|]. split; [reflexivity|].
  pose proof (local_completion_offers_listed_names (Handle:=nat) (OS:=host)
                (HP:=paths) "b" (offline desk)
                ltac:(intros p w; reflexivity) ltac:(intros p w; reflexivity)
                desk (Ret (local_names desk)) ltac:(reflexivity)) as H.
  cbn iota in H. inversion H as [|? ? H1 _]; subst. exact H1.
Defined.

End AtTheDesk.
